(** * Cognigy custom modules: Jira, Azure Cognitive Services / Bing, Yext and
      ServiceNow connectors

    A shallow embedding of the connector functions of the repository and the
    properties of their validation, error policy and store writes.

    Every connector is an [async] function [(input, args) => Promise].  It is
    embedded as a computation in a small monad that records the observable
    events of one invocation (outbound HTTP calls, writes to the conversation
    state, logging) and the state of the promise handed back to the flow
    engine.  Everything outside the repository (the replies of the HTTP
    clients, [JSON.parse], [uuidv4]) is an input of the model. *)

From Stdlib Require Import String Ascii List ZArith Bool Arith Lia DecimalString.
Import ListNotations.

Local Open Scope string_scope.
Local Open Scope list_scope.

(** String concatenation, the [+] of JavaScript on strings. *)
Infix "^^" := String.append (at level 60, right associativity).

(* ================================================================== *)
(** * JavaScript values *)
(* ================================================================== *)

(** Numbers are restricted to the integers and [NaN], which is all the
    connectors compute with.  Objects keep their fields in insertion order; a
    lookup takes the first binding of a key.  [VError] is an [Error] object
    with its [name] and [message]. *)
#[warnings="-register-all"]
Inductive value : Type :=
| VUndef
| VNull
| VBool (b : bool)
| VNum (n : Z)
| VNaN
| VStr (s : string)
| VArr (items : list value)
| VObj (fields : list (string * value))
| VError (name message : string).

(** [!!v] *)
Definition truthy (v : value) : bool :=
  match v with
  | VUndef | VNull | VNaN => false
  | VBool b => b
  | VNum n => negb (n =? 0)%Z
  | VStr s => negb (s =? "")
  | VArr _ | VObj _ | VError _ _ => true
  end.

(** [v === undefined] *)
Definition is_undefined (v : value) : bool :=
  match v with VUndef => true | _ => false end.

(** [v === undefined || v === null]: the values a property read throws on. *)
Definition nullish (v : value) : bool :=
  match v with VUndef | VNull => true | _ => false end.

Fixpoint lookup (k : string) (fs : list (string * value)) : option value :=
  match fs with
  | [] => None
  | (k', v) :: rest => if k' =? k then Some v else lookup k rest
  end.

(** [v.k] on a value that is neither [undefined] nor [null].  The built-in
    properties of strings and arrays ([length], indices) are read through
    [js_length] and [index0] below, where the source reads them. *)
Definition get (v : value) (k : string) : value :=
  match v with
  | VObj fs => match lookup k fs with Some x => x | None => VUndef end
  | VError n m =>
      if k =? "message" then VStr m else if k =? "name" then VStr n else VUndef
  | _ => VUndef
  end.

(** Reading along a path of property names, [undefined] as soon as a step is
    missing (no step throws: a missing step yields [undefined], on which [get]
    is [undefined] again). *)
Fixpoint path_get (v : value) (p : list string) : value :=
  match p with
  | [] => v
  | k :: p' => path_get (get v k) p'
  end.

(** [o.k = v] on an object: replaces the binding or adds one at the end. *)
Fixpoint set_field (k : string) (v : value) (fs : list (string * value))
  : list (string * value) :=
  match fs with
  | [] => [(k, v)]
  | (k', v') :: rest =>
      if k' =? k then (k, v) :: rest else (k', v') :: set_field k v rest
  end.

Definition set_prop (o : value) (k : string) (v : value) : value :=
  match o with
  | VObj fs => VObj (set_field k v fs)
  | _ => o
  end.

(** [a && b] and [a || b] on already evaluated operands. *)
Definition js_and (a b : value) : value := if truthy a then b else a.
Definition js_or (a b : value) : value := if truthy a then a else b.

(** [Array.isArray(v) ? v[0] : other] *)
Definition is_array (v : value) : bool :=
  match v with VArr _ => true | _ => false end.

Definition index0 (v : value) : value :=
  match v with
  | VArr (x :: _) => x
  | _ => VUndef
  end.

Definition decimal (n : Z) : string := NilZero.string_of_int (Z.to_int n).

(** [String(v)], the conversion applied by template literals, by [+] with a
    string and by property keys.  Integers print in decimal, as JavaScript
    prints them below [1e21]. *)
Fixpoint to_string (v : value) : string :=
  match v with
  | VUndef => "undefined"
  | VNull => "null"
  | VBool true => "true"
  | VBool false => "false"
  | VNum n => decimal n
  | VNaN => "NaN"
  | VStr s => s
  | VArr l =>
      (fix join (l : list value) : string :=
         match l with
         | [] => ""
         | x :: rest =>
             let sx := match x with
                       | VUndef | VNull => ""
                       | _ => to_string x
                       end in
             match rest with
             | [] => sx
             | _ :: _ => sx ^^ "," ^^ join rest
             end
         end) l
  | VObj _ => "[object Object]"
  | VError n m => if m =? "" then n else n ^^ ": " ^^ m
  end.

(** [new Error(m)]: an [undefined] message is the empty message. *)
Definition new_Error (m : value) : value :=
  VError "Error" (match m with VUndef => "" | _ => to_string m end).

(** The [TypeError] of a property read on [undefined] or [null]. *)
Definition TypeError_read (v : value) (k : string) : value :=
  VError "TypeError"
    ("Cannot read property '" ^^ k ^^ "' of " ^^ to_string v).

Definition TypeError_not_a_function (what : string) : value :=
  VError "TypeError" (what ^^ " is not a function").

(* ================================================================== *)
(** * Strings *)
(* ================================================================== *)

(** Strings are byte strings holding UTF-8. *)

Definition code (a : ascii) : nat := nat_of_ascii a.

Definition between (lo hi : nat) (a : ascii) : bool :=
  ((lo <=? code a) && (code a <=? hi))%nat.

(** [s.length], in UTF-16 code units: one per code point, two for a code
    point outside the basic plane (a four-byte sequence). *)
Fixpoint utf16_length (s : string) : nat :=
  match s with
  | EmptyString => 0
  | String a s' =>
      (if between 128 191 a then 0 else if (240 <=? code a)%nat then 2 else 1)
      + utf16_length s'
  end.

(** [v.length] on a value that is neither [undefined] nor [null]. *)
Definition js_length (v : value) : value :=
  match v with
  | VStr s => VNum (Z.of_nat (utf16_length s))
  | VArr l => VNum (Z.of_nat (length l))
  | VObj _ => get v "length"
  | _ => VUndef
  end.

(** [v + n] for a number literal [n]. *)
Definition js_add_num (v : value) (n : Z) : value :=
  match v with
  | VNum m => VNum (m + n)
  | VNull | VBool false => VNum n
  | VBool true => VNum (1 + n)
  | VUndef | VNaN => VNaN
  | VStr _ | VArr _ | VObj _ | VError _ _ => VStr (to_string v ^^ decimal n)
  end.

(** [s.toLowerCase()] on the ASCII letters. *)
Definition lower_char (a : ascii) : ascii :=
  if between 65 90 a then ascii_of_nat (code a + 32) else a.

Fixpoint lower (s : string) : string :=
  match s with
  | EmptyString => EmptyString
  | String a s' => String (lower_char a) (lower s')
  end.

Definition hex_digit (n : nat) : ascii :=
  if (n <? 10)%nat then ascii_of_nat (48 + n) else ascii_of_nat (55 + n).

(** The characters [encodeURIComponent] leaves alone:
    [A-Z a-z 0-9 - _ . ! ~ * ' ( )]. *)
Definition uri_unreserved (a : ascii) : bool :=
  between 65 90 a || between 97 122 a || between 48 57 a
  || existsb (Nat.eqb (code a)) [45; 95; 46; 33; 126; 42; 39; 40; 41].

Fixpoint encodeURIComponent (s : string) : string :=
  match s with
  | EmptyString => EmptyString
  | String a s' =>
      if uri_unreserved a then String a (encodeURIComponent s')
      else String "%" (String (hex_digit (code a / 16))
             (String (hex_digit (code a mod 16)) (encodeURIComponent s')))
  end.

(* ================================================================== *)
(** * Regular expressions *)
(* ================================================================== *)

(** The fragment of the regular expression syntax the repository uses:
    sequences of character classes, each taken once or quantified by a
    greedy [+]. *)
Module Regex.

Inductive cls : Type :=
| Lit (c : ascii)              (* a literal character *)
| Range (lo hi : ascii)        (* [lo-hi] *)
| Digit                        (* \d *)
| Union (a b : cls).           (* [ab] *)

Fixpoint in_cls (c : cls) (a : ascii) : bool :=
  match c with
  | Lit x => Ascii.eqb x a
  | Range lo hi => between (code lo) (code hi) a
  | Digit => between 48 57 a
  | Union x y => in_cls x a || in_cls y a
  end.

Inductive item : Type :=
| One (c : cls)
| Many1 (c : cls).             (* c+ *)

Definition pattern := list item.

(** [c+] followed by the rest of the pattern, [k]: the quantifier first
    tries to take one more character and gives it back only when what
    follows does not match. *)
Fixpoint many (c : cls) (k : list ascii -> option (list ascii))
    (s : list ascii) : option (list ascii) :=
  match s with
  | a :: s' =>
      if in_cls c a then
        match many c k s' with
        | Some m => Some (a :: m)
        | None => option_map (cons a) (k s')
        end
      else None
  | [] => None
  end.

(** Backtracking match of [p] at the head of [s]: the matched prefix. *)
Fixpoint match_here (p : pattern) (s : list ascii) {struct p}
  : option (list ascii) :=
  match p with
  | [] => Some []
  | One c :: p' =>
      match s with
      | a :: s' =>
          if in_cls c a then option_map (cons a) (match_here p' s') else None
      | [] => None
      end
  | Many1 c :: p' => many c (match_here p') s
  end.

(** The leftmost match. *)
Fixpoint search (p : pattern) (s : list ascii) : option (list ascii) :=
  match match_here p s with
  | Some m => Some m
  | None => match s with
            | [] => None
            | _ :: s' => search p s'
            end
  end.

(** All matches from left to right, as the [g] flag collects them: after a
    match the scan resumes behind it ([skip] counts the characters of the
    last match still to step over). *)
Fixpoint scan (p : pattern) (s : list ascii) (skip : nat)
  : list (list ascii) :=
  match skip with
  | S n => match s with
           | [] => []
           | _ :: s' => scan p s' n
           end
  | O =>
      match match_here p s with
      | Some m =>
          m :: match s with
               | [] => []
               | _ :: s' => scan p s' (pred (length m))
               end
      | None => match s with
                | [] => []
                | _ :: s' => scan p s' 0
                end
      end
  end.

(** The words of a pattern. *)
Inductive lang : pattern -> list ascii -> Prop :=
| lang_nil : lang [] []
| lang_one c a p m :
    in_cls c a = true -> lang p m -> lang (One c :: p) (a :: m)
| lang_many c l p m :
    l <> [] -> Forall (fun a => in_cls c a = true) l -> lang p m ->
    lang (Many1 c :: p) (l ++ m).

End Regex.

(** [text.match(pattern)] for a pattern with the [g] flag: the array of all
    matches, [null] when there is none. *)
Definition js_match (p : Regex.pattern) (text : string) : value :=
  match Regex.scan p (list_ascii_of_string text) 0 with
  | [] => VNull
  | ms => VArr (map (fun m => VStr (string_of_list_ascii m)) ms)
  end.

(** [/[a-zA-Z]+-\d+/g] *)
Definition ticket_pattern : Regex.pattern :=
  [ Regex.Many1 (Regex.Union (Regex.Range "a" "z") (Regex.Range "A" "Z"));
    Regex.One (Regex.Lit "-");
    Regex.Many1 Regex.Digit ].

(* ================================================================== *)
(** * Events, promises and the connector monad *)
(* ================================================================== *)

(** An outbound call, by the client library that issues it. *)
Inductive request : Type :=
| JiraCall (host auth : value) (operation : string) (payload : value)
    (* new JiraClient({host, basic_auth}).issue.<operation>(payload, cb) *)
| AxiosCall (method url : string) (data : option value) (config : value)
    (* axios.<method>(url, [data,] config) *)
| HttpsCall (options : value) (written : option value)
    (* https.request(options, handler), req.write(written), req.end() *)
| HttpsGet (target : value)
    (* https.get(target, handler) *)
| RequestCall (options : value).
    (* request(options, cb) *)

(** The value handed to [req.write]: a string, or [JSON.stringify(v)], which
    is kept symbolic as the object [{ "JSON.stringify": v }]. *)
Definition stringified (v : value) : value := VObj [("JSON.stringify", v)].

Inductive event : Type :=
| Http (r : request)
| AddToContext (key v : value) (mode : string)
    (* input.actions.addToContext(key, v, mode) *)
| SetContext (key : string) (v : value)
    (* input.context.getFullContext()[key] = v *)
| SetInput (key : string) (v : value)
    (* input.input[key] = v *)
| Log (level message : value)
    (* input.actions.log(level, message) *)
| Output (text data : value)
    (* input.actions.output(text, data) *)
| Unhandled (reason : value)
    (* a rejected promise nobody listens to: Promise.reject(reason) *)
| Uncaught (e : value).
    (* an exception or an 'error' event nobody handles *)

(** The promise returned to the flow engine. *)
Inductive outcome : Type :=
| Pending
| Resolved                    (* resolved with [input] *)
| Rejected (reason : value).

Record state : Type := {
  trace : list event;
  promise : outcome
}.

Definition start : state := {| trace := []; promise := Pending |}.

(** How a piece of code ends: normally, by throwing, or never (it awaits a
    promise that is never settled). *)
Inductive completion (A : Type) : Type :=
| Normal (a : A)
| Throw (e : value)
| Hang.
Arguments Normal {A} a.
Arguments Throw {A} e.
Arguments Hang {A}.

Definition M (A : Type) : Type := state -> state * completion A.

Definition ret {A} (a : A) : M A := fun s => (s, Normal a).

Definition bind {A B} (m : M A) (k : A -> M B) : M B :=
  fun s =>
    match m s with
    | (s', Normal a) => k a s'
    | (s', Throw e) => (s', Throw e)
    | (s', Hang) => (s', Hang)
    end.

Notation "x <- m ;; k" := (bind m (fun x => k))
  (at level 61, m at next level, right associativity).
Notation "m ;; k" := (bind m (fun _ => k))
  (at level 61, right associativity).

Definition throw {A} (e : value) : M A := fun s => (s, Throw e).

Definition hang {A} : M A := fun s => (s, Hang).

(** [try { m } catch (e) { h e }] *)
Definition try_catch {A} (m : M A) (h : value -> M A) : M A :=
  fun s =>
    match m s with
    | (s', Throw e) => h e s'
    | r => r
    end.

Definition emit (e : event) : M unit :=
  fun s => ({| trace := trace s ++ [e]; promise := promise s |}, Normal tt).

(** A promise is settled once; later calls of [resolve] and [reject] do
    nothing. *)
Definition settle (o : outcome) (s : state) : state :=
  match promise s with
  | Pending => {| trace := trace s; promise := o |}
  | _ => s
  end.

Definition resolve : M unit := fun s => (settle Resolved s, Normal tt).
Definition reject (r : value) : M unit :=
  fun s => (settle (Rejected r) s, Normal tt).

(** [v.k] where [v] may be anything: a read on [undefined] or [null]
    throws. *)
Definition prop (v : value) (k : string) : M value :=
  if nullish v then throw (TypeError_read v k) else ret (get v k).

(** [if (!v) throw new Error(msg)] *)
Definition check (v : value) (msg : string) : M unit :=
  if truthy v then ret tt else throw (VError "Error" msg).

(** [if (v === undefined) throw new Error(msg)] *)
Definition check_defined (v : value) (msg : string) : M unit :=
  if is_undefined v then throw (VError "Error" msg) else ret tt.

(** The executor of [new Promise((resolve, reject) => ...)]: an exception
    that escapes it rejects the promise. *)
Definition executor (m : M unit) : M unit := try_catch m reject.

(** A callback run by a client library or an event emitter: an exception
    that escapes it is nobody's to catch. *)
Definition callback (m : M unit) : M unit :=
  try_catch m (fun e => emit (Uncaught e)).

(** The handlers of [p.then(f).catch(g)] once the settlement of [p] is
    known: an exception that escapes [g] rejects a promise nobody holds. *)
Definition chain_handler (m : M unit) : M unit :=
  try_catch m (fun e => emit (Unhandled e)).

Definition addToContext (key v : value) (mode : string) : M unit :=
  emit (AddToContext key v mode).

(** An [async] function: an exception that escapes the body rejects the
    returned promise; a body that hangs leaves it as it stands. *)
Definition run_async (body : M unit) : state :=
  match body start with
  | (s, Normal _) => s
  | (s, Throw e) => settle (Rejected e) s
  | (s, Hang) => s
  end.

(** ** Reading a trace *)

Definition is_http (e : event) : bool :=
  match e with Http _ => true | _ => false end.

(** The slots of the conversation state a connector can write to. *)
Inductive slot : Type :=
| ContextSlot (key : string)
| InputSlot (key : string).

Definition write_of (e : event) : option (slot * value) :=
  match e with
  | AddToContext k v _ => Some (ContextSlot (to_string k), v)
  | SetContext k v => Some (ContextSlot k, v)
  | SetInput k v => Some (InputSlot k, v)
  | _ => None
  end.

Definition is_write (e : event) : bool :=
  match write_of e with Some _ => true | None => false end.

Fixpoint writes (tr : list event) : list (slot * value) :=
  match tr with
  | [] => []
  | e :: tr' => match write_of e with
                | Some w => w :: writes tr'
                | None => writes tr'
                end
  end.

Definition http_calls (tr : list event) : list event := filter is_http tr.

(** No outbound call is issued after a write. *)
Fixpoint writes_last (tr : list event) : bool :=
  match tr with
  | [] => true
  | e :: tr' =>
      (if is_write e then forallb (fun e' => negb (is_http e')) tr' else true)
      && writes_last tr'
  end.

(* ================================================================== *)
(** * The world outside the repository *)
(* ================================================================== *)

(** The two arguments the jira-connector client passes to its callback. *)
Record jira_reply : Type := {
  jira_error : value;
  jira_issue : value
}.

(** How the promise of an axios call settles. *)
Inductive axios_reply : Type :=
| AxiosResolve (response : value)
| AxiosReject (error : value).

(** What happens to a request of the Node [https] client.  The request can
    fail before there is a response (an ['error'] event on the request
    object); otherwise the handler receives a response, which delivers its
    chunks and ends with ['end'] or with ['error']. *)
Inductive https_reply : Type :=
| RequestError (err : value)
| ResponseEnd (chunks : list string)
| ResponseError (chunks : list string) (err : value).

(** The three arguments the [request] client passes to its callback. *)
Record request_reply : Type := {
  request_err : value;
  request_res : value;
  request_body : value
}.

(** [https.get(url, cb)] with a URL of the caller: the client can refuse the
    URL at once (it throws), fail on the way, or hand over a response. *)
Inductive download_reply : Type :=
| DownloadRefused (e : value)
| DownloadError (err : value)
| DownloadResponse (response : value).

Record world : Type := {
  input_text : value;            (* input.input.text *)
  jira : jira_reply;
  axios : axios_reply;
  https : https_reply;
  request_cb : request_reply;
  download : download_reply;
  uuid : string                  (* uuidv4().toString() *)
}.

(** [return input] at the end of an [async] function. *)
Definition return_input : M unit := resolve.

(** [return Promise.reject(reason)] in an [async] function. *)
Definition return_rejected (reason : value) : M unit := reject reason.

(** [Array.isArray(error.errorMessages) ? error.errorMessages[0]
                                        : error.errorMessage] *)
Definition extract_errorMessage (error : value) : value :=
  if is_array (get error "errorMessages")
  then index0 (get error "errorMessages")
  else get error "errorMessage".

(* ================================================================== *)
(** * The Jira connectors *)
(* ================================================================== *)

Definition jira_client (domain username password : value)
    (operation : string) (payload : value) : request :=
  JiraCall domain (VObj [("username", username); ("password", password)])
    operation payload.

Definition createJiraTicket (input : world) (args : value) : M unit :=
  (* validate node arguments *)
  let secret := get args "secret" in
  let summary := get args "summary" in
  let projectId := get args "projectId" in
  let epicname := get args "epicname" in
  let description := get args "description" in
  let assignee := get args "assignee" in
  let contextStore := get args "contextStore" in
  let stopOnError := get args "stopOnError" in
  check secret "Secret not defined." ;;
  check summary "Summary not defined." ;;
  check projectId "Project Id not defined." ;;
  check epicname "Epicname not defined." ;;
  check description "Description not defined." ;;
  check contextStore "Context store not defined." ;;
  check_defined stopOnError "Stop on error flag not defined." ;;
  (* validate secrets *)
  let username := get secret "username" in
  let password := get secret "password" in
  let domain := get secret "domain" in
  check username "Secret is missing the 'username' field." ;;
  check password "Secret is missing the 'password' field." ;;
  check domain "Secret is missing the 'domain' field." ;;
  executor (
    emit (Http (jira_client domain username password "issue.createIssue"
      (VObj [("fields", VObj [
         ("summary", summary);
         ("issuetype", VObj [("id", VStr "10000")]);
         ("project", VObj [("key", projectId)]);
         ("customfield_10011", epicname);
         ("description", description);
         ("assignee", VObj [("name", js_or assignee (VStr "admin"))])])]))) ;;
    let error := jira_error (jira input) in
    let issue := jira_issue (jira input) in
    callback (
      try_catch (
        returned <-
          (if truthy error then
             let errorMessage := extract_errorMessage error in
             let fullMessage :=
               "Error: " ^^ to_string errorMessage
                 ^^ ". Please check your Cognigy Secret, too." in
             if truthy (get args "stopOnError") then
               reject (VStr fullMessage) ;; ret true
             else
               addToContext contextStore (VObj [("error", errorMessage)])
                 "simple" ;;
               resolve ;; ret false
           else ret false) ;;
        if returned : bool then ret tt
        else addToContext contextStore issue "simple" ;; resolve)
      (fun err => reject err))).

Definition extractTicket (input : world) (args : value) : M unit :=
  (* validate node arguments *)
  let contextStore := get args "contextStore" in
  let stopOnError := get args "stopOnError" in
  check contextStore "Context store not defined." ;;
  check_defined stopOnError "Stop on error flag not defined." ;;
  try_catch (
    let text := input_text input in
    matched <-
      (if nullish text then throw (TypeError_read text "match")
       else match text with
            | VStr s => ret (js_match ticket_pattern s)
            | _ => throw (TypeError_not_a_function "input.input.text.match")
            end) ;;
    if truthy matched then addToContext contextStore (index0 matched) "simple"
    else addToContext contextStore (VStr "No ticket found") "simple")
  (fun error =>
     if truthy stopOnError then throw (new_Error (get error "message"))
     else addToContext contextStore
            (VObj [("error", get error "message")]) "simple") ;;
  return_input.

Record IValidateArgsResponse : Type := {
  ticket : value;
  contextStore : value;
  stopOnError : value;
  username : value;
  password : value;
  domain : value
}.

Definition validateArgs (args : value) : M IValidateArgsResponse :=
  (* validate node arguments *)
  let secret := get args "secret" in
  let ticket := get args "ticket" in
  let contextStore := get args "contextStore" in
  let stopOnError := get args "stopOnError" in
  check secret "Secret not defined." ;;
  check ticket "No ticket defined. Please define a ticket like AB-1234." ;;
  check contextStore "Context store not defined." ;;
  check_defined stopOnError "Stop on error flag not defined." ;;
  (* validate secrets *)
  let username := get secret "username" in
  let password := get secret "password" in
  let domain := get secret "domain" in
  check username "Secret is missing the 'username' field." ;;
  check password "Secret is missing the 'password' field." ;;
  check domain "Secret is missing the 'domain' field." ;;
  ret {| ticket := ticket; contextStore := contextStore;
         stopOnError := stopOnError; username := username;
         password := password; domain := domain |}.

(** The first two branches of the [getIssue] callbacks, shared by
    [processJiraIssue], [getTicketSummary] and [getAllTicketInfo]; [found]
    is the third one. *)
Definition getIssue_callback (input : world) (contextStore stopOnError : value)
    (found : value -> M unit) : M unit :=
  let error := jira_error (jira input) in
  let issue := jira_issue (jira input) in
  if truthy (js_and error (get error "errorMessages")) then
    let errorMessage := extract_errorMessage error in
    if truthy stopOnError then reject errorMessage
    else
      addToContext contextStore (VObj [("error", errorMessage)]) "simple" ;;
      resolve
  else if truthy error then
    emit (Log (VStr "error") (VStr "JIRA API has changed")) ;;
    reject (VStr "Error while getting Jira issue.")
  else found issue.

Definition processJiraIssue (input : world)
    (ticket contextStore stopOnError username password domain : value)
    (fieldName : string) : M unit :=
  executor (
    emit (Http (jira_client domain username password "issue.getIssue"
                  (VObj [("issueKey", ticket)]))) ;;
    callback (
      try_catch (
        getIssue_callback input contextStore stopOnError (fun issue =>
          (if truthy issue then ret tt
           else reject
                  (VStr "Error while getting Jira issue. No issue was found")) ;;
          key <- prop issue "key" ;;
          fields <- prop issue "fields" ;;
          let result := VObj [
            ("ticket", js_or key VNull);
            ("status", js_or (js_and fields (get fields fieldName)) VNull)] in
          addToContext contextStore result "simple" ;;
          resolve))
      (fun err => reject err))).

Definition jira_field (fieldName : string) (input : world) (args : value)
  : M unit :=
  v <- validateArgs args ;;
  processJiraIssue input (ticket v) (contextStore v) (stopOnError v)
    (username v) (password v) (domain v) fieldName.

Definition getTicketStatus := jira_field "status".
Definition getTicketAssignee := jira_field "assignee".
Definition getTicketPriority := jira_field "priority".
Definition getTicketResolution := jira_field "resolution".
Definition getTicketReporter := jira_field "reporter".
Definition getTicketComments := jira_field "comment".
Definition getTicketWatchers := jira_field "watches".

(** [typeof v === "object"] *)
Definition typeof_object (v : value) : bool :=
  match v with
  | VNull | VArr _ | VObj _ | VError _ _ => true
  | _ => false
  end.

(** [Object.keys(v).length] *)
Definition own_keys (v : value) : nat :=
  match v with
  | VObj fs => length fs
  | VArr l => length l
  | _ => 0
  end.

(** [issue.fields && issue.fields.a && issue.fields.a.b || null] *)
Definition field_of (issue : value) (a b : string) : M value :=
  fields <- prop issue "fields" ;;
  x <- (if truthy fields then
          fa <- prop fields a ;;
          if truthy fa then prop fa b else ret fa
        else ret fields) ;;
  ret (js_or x VNull).

(** The assignments of a [try] block to the fields of a local object, run
    in order: the object as it stands when the block ends, and the exception
    that ended it early, if any. *)
Fixpoint assignments (stmts : list (string * M value)) (result : value)
  : M (value * option value) :=
  match stmts with
  | [] => ret (result, None)
  | (k, rhs) :: rest =>
      r <- try_catch (v <- rhs ;; ret (inl v)) (fun e => ret (inr e)) ;;
      match r with
      | inl v => assignments rest (set_prop result k v)
      | inr e => ret (result, Some e)
      end
  end.

(** The body of the [try] block of [getTicketSummary]:
    [result.ticket = issue.key || null; result.type = ...; ...] *)
Definition summary_fields (issue : value) : list (string * M value) :=
  [ ("ticket", key <- prop issue "key" ;; ret (js_or key VNull));
    ("type", field_of issue "issuetype" "name");
    ("project", field_of issue "project" "name");
    ("status", field_of issue "status" "name");
    ("assignedTo", field_of issue "assignee" "emailAddress");
    ("reportedBy", field_of issue "reporter" "emailAddress");
    ("resolution", field_of issue "resolution" "name");
    ("comments", field_of issue "comment" "comments") ].

Definition getTicketSummary (input : world) (args : value) : M unit :=
  v <- validateArgs args ;;
  let contextStore := contextStore v in
  executor (
    let result := VObj [] in
    emit (Http (jira_client (domain v) (username v) (password v)
                  "issue.getIssue" (VObj [("issueKey", ticket v)]))) ;;
    callback (
      getIssue_callback input contextStore (stopOnError v) (fun issue =>
        (if negb (truthy issue) || negb (typeof_object issue)
            || (own_keys issue =? 0)%nat
         then emit (Unhandled
                (VStr "Error while getting Jira issue. No issue was found"))
         else ret tt) ;;
        r <- assignments (summary_fields issue) result ;;
        let result := fst r in
        match snd r with
        | Some err =>
            emit (Log (VStr ("Error while getting ticket summary. Error was: "
                               ^^ to_string err)) VUndef) ;;
            emit (Unhandled (VStr "Error while getting ticket summary"))
        | None => ret tt
        end ;;
        addToContext contextStore result "simple" ;;
        resolve))).

Definition getAllTicketInfo (input : world) (args : value) : M unit :=
  v <- validateArgs args ;;
  let contextStore := contextStore v in
  executor (
    emit (Http (jira_client (domain v) (username v) (password v)
                  "issue.getIssue" (VObj [("issueKey", ticket v)]))) ;;
    callback (
      getIssue_callback input contextStore (stopOnError v) (fun issue =>
        (if truthy issue then ret tt
         else reject
                (VStr "Error while getting Jira issue. No issue was found")) ;;
        addToContext contextStore issue "simple" ;;
        resolve))).

(* ================================================================== *)
(** * The Azure Cognitive Services and Bing connectors *)
(* ================================================================== *)

Section Azure.

(** [JSON.parse]: the parsed value, [None] where it throws a
    [SyntaxError]. *)
Variable JSON_parse : string -> option value.

Definition SyntaxError : value :=
  VError "SyntaxError" "Unexpected token in JSON".

Definition parse (body : string) : M value :=
  match JSON_parse body with
  | Some v => ret v
  | None => throw SyntaxError
  end.

(** [if (args.writeToContext) input.context.getFullContext()[args.store] = result;
     else input.input[args.store] = result;] *)
Definition store_result (args result : value) : M unit :=
  if truthy (get args "writeToContext")
  then emit (SetContext (to_string (get args "store")) result)
  else emit (SetInput (to_string (get args "store")) result).

(** The life of a request of the [https] client once it is sent.  No
    connector listens to the ['error'] event of the request object, and
    [on_error] is the listener of the response's ['error'] event where the
    handler installs one: an ['error'] event without a listener is thrown
    by the emitter. *)
Definition https_exchange (input : world) (on_end : string -> M unit)
    (on_error : option (value -> M unit)) : M unit :=
  match https input with
  | RequestError err => emit (Uncaught err)
  | ResponseEnd chunks => callback (on_end (String.concat "" chunks))
  | ResponseError chunks err =>
      match on_error with
      | Some listener => callback (listener err)
      | None => emit (Uncaught err)
      end
  end.

(** The [response_handler] of [spellCheck], [recognizeLanguage],
    [extractKeyphrases] and [namedEntityRecognition]. *)
Definition response_handler (input : world) (args : value) : M unit :=
  https_exchange input
    (fun body =>
       result <- parse body ;;
       store_result args result ;;
       resolve)
    (Some (fun err =>
       message <- prop err "message" ;;
       if truthy (get args "stopOnError") then reject message
       else
         let result := VObj [("error", message)] in
         store_result args result ;;
         resolve)).

Definition spellCheck (input : world) (args : value) : M unit :=
  if negb (truthy (get args "secret"))
     || negb (truthy (get (get args "secret") "key"))
  then return_rejected (VStr "Secret not defined or invalid.")
  else if negb (truthy (get args "text"))
  then return_rejected (VStr "No text defined.")
  else executor (
    let host := "api.cognitive.microsoft.com" in
    let path := "/bing/v7.0/spellcheck" in
    let query_string :=
      "?mkt=" ^^ to_string (get args "language") ^^ "&mode=proof" in
    let request_params := VObj [
      ("method", VStr "POST");
      ("hostname", VStr host);
      ("path", VStr (path ^^ query_string));
      ("headers", VObj [
         ("Content-Type", VStr "application/x-www-form-urlencoded");
         ("Content-Length", js_add_num (js_length (get args "text")) 5);
         ("Ocp-Apim-Subscription-Key", get (get args "secret") "key")])] in
    emit (Http (HttpsCall request_params
            (Some (VStr ("text=" ^^ to_string (get args "text")))))) ;;
    response_handler input args).

(** [get_language], [get_key_phrases] and [get_entities]: the POST of
    [JSON.stringify(documents)] to the text analytics host. *)
Definition text_analytics (input : world) (args : value)
    (path : string) (documents : value) : M unit :=
  let accessKey := get (get args "secret") "key" in
  let uri := "westus.api.cognitive.microsoft.com" in
  let request_params := VObj [
    ("method", VStr "POST");
    ("hostname", VStr uri);
    ("path", VStr path);
    ("headers", VObj [("Ocp-Apim-Subscription-Key", accessKey)])] in
  emit (Http (HttpsCall request_params (Some (stringified documents)))) ;;
  response_handler input args.

Definition recognizeLanguage (input : world) (args : value) : M unit :=
  if negb (truthy (get args "secret"))
     || negb (truthy (get (get args "secret") "key"))
  then return_rejected (VStr "Secret not defined or invalid.")
  else if negb (truthy (get args "text"))
  then return_rejected (VStr "No text defined.")
  else executor (
    let documents := VObj [("documents", VArr [
      VObj [("id", VStr "1"); ("text", get args "text")]])] in
    text_analytics input args "/text/analytics/v2.0/languages" documents).

Definition extractKeyphrases (input : world) (args : value) : M unit :=
  if negb (truthy (get args "secret"))
     || negb (truthy (get (get args "secret") "key"))
  then return_rejected (VStr "Secret not defined or invalid.")
  else if negb (truthy (get args "text"))
  then return_rejected (VStr "No text defined.")
  else executor (
    let documents := VObj [("documents", VArr [
      VObj [("id", VStr "1"); ("language", get args "language");
            ("text", get args "text")]])] in
    text_analytics input args "/text/analytics/v2.0/keyPhrases" documents).

Definition namedEntityRecognition (input : world) (args : value) : M unit :=
  if negb (truthy (get args "secret"))
     || negb (truthy (get (get args "secret") "key"))
  then return_rejected (VStr "Secret not defined or invalid.")
  else if negb (truthy (get args "text"))
  then return_rejected (VStr "No text defined.")
  else executor (
    let documents := VObj [("documents", VArr [
      VObj [("id", VStr "1"); ("language", get args "language");
            ("text", get args "text")]])] in
    text_analytics input args "/text/analytics/v2.1-preview/entities"
      documents).

Definition bingWebSearch (input : world) (args : value) : M unit :=
  if negb (truthy (get args "secret"))
     || negb (truthy (get (get args "secret") "key"))
  then return_rejected (VStr "Secret not defined or invalid.")
  else if negb (truthy (get args "query"))
  then return_rejected (VStr "No query defined.")
  else executor (
    let accessKey := get (get args "secret") "key" in
    emit (Http (HttpsGet (VObj [
      ("hostname", VStr "api.cognitive.microsoft.com");
      ("path", VStr ("/bing/v7.0/search?q="
                       ^^ encodeURIComponent (to_string (get args "query"))));
      ("headers", VObj [("Ocp-Apim-Subscription-Key", accessKey)])]))) ;;
    https_exchange input
      (fun body =>
         result <- parse body ;;
         emit (SetInput (to_string (get args "store")) result) ;;
         resolve)
      (Some (fun err =>
         message <- prop err "message" ;;
         if truthy (get args "stopOnError") then reject message
         else
           let result := VObj [("error", message)] in
           emit (SetInput (to_string (get args "store")) result) ;;
           resolve))).

Definition bingNewsSearch (input : world) (args : value) : M unit :=
  if negb (truthy (get args "secret"))
     || negb (truthy (get (get args "secret") "key"))
  then return_rejected (VStr "Secret not defined or invalid.")
  else if negb (truthy (get args "term"))
  then return_rejected (VStr "No news term defined.")
  else executor (
    let accessKey := get (get args "secret") "key" in
    emit (Http (HttpsGet (VObj [
      ("hostname", VStr "api.cognitive.microsoft.com");
      ("path", VStr ("/bing/v7.0/news/search?q="
                       ^^ encodeURIComponent (to_string (get args "term"))));
      ("headers", VObj [("Ocp-Apim-Subscription-Key", accessKey)])]))) ;;
    https_exchange input
      (fun body =>
         result <- parse body ;;
         emit (SetInput (to_string (get args "store")) result) ;;
         resolve)
      None).

Definition bingImageSearch (input : world) (args : value) : M unit :=
  if negb (truthy (get args "secret"))
     || negb (truthy (get (get args "secret") "key"))
  then return_rejected (VStr "Secret not defined or invalid.")
  else if negb (truthy (get args "term"))
  then return_rejected (VStr "No image term defined.")
  else executor (
    let accessKey := get (get args "secret") "key" in
    let request_params := VObj [
      ("method", VStr "GET");
      ("hostname", VStr "api.cognitive.microsoft.com");
      ("path", VStr ("/bing/v7.0/images/search" ^^ "?q="
                       ^^ encodeURIComponent (to_string (get args "term"))));
      ("headers", VObj [("Ocp-Apim-Subscription-Key", accessKey)])] in
    emit (Http (HttpsCall request_params None)) ;;
    https_exchange input
      (fun body =>
         result <- parse body ;;
         emit (SetInput (to_string (get args "store")) result) ;;
         resolve)
      None).

Definition textTranslator (input : world) (args : value) : M unit :=
  if negb (truthy (get args "secret"))
     || negb (truthy (get (get args "secret") "key"))
  then return_rejected (VStr "Secret not defined or invalid.")
  else if negb (truthy (get args "text"))
  then return_rejected (VStr "No text defined.")
  else executor (
    let accessKey := get (get args "secret") "key" in
    let options := VObj [
      ("method", VStr "POST");
      ("baseUrl", VStr "https://api.cognitive.microsofttranslator.com/");
      ("url", VStr "translate");
      ("qs", VObj [("api-version", VStr "3.0");
                   ("to", get args "language")]);
      ("headers", VObj [
         ("Ocp-Apim-Subscription-Key", accessKey);
         ("Content-type", VStr "application/json");
         ("X-ClientTraceId", VStr (uuid input))]);
      ("body", VArr [VObj [("text", get args "text")]]);
      ("json", VBool true)] in
    emit (Http (RequestCall options)) ;;
    callback (
      let body := request_body (request_cb input) in
      let result := body in
      store_result args result ;;
      resolve)).

End Azure.

(* ================================================================== *)
(** * The Yext and ServiceNow connectors *)
(* ================================================================== *)

(** [v.toLowerCase()] on a truthy value. *)
Definition toLowerCase (what : string) (v : value) : M value :=
  match v with
  | VStr s => ret (VStr (lower s))
  | _ => throw (TypeError_not_a_function (what ^^ ".toLowerCase"))
  end.

Definition GetEntity (input : world) (args : value) : M unit :=
  if negb (truthy (get args "secret"))
     || negb (truthy (get (get args "secret") "api_key"))
  then return_rejected (VStr "Secret not defined or invalid.")
  else if negb (truthy (get args "entity"))
  then return_rejected (VStr "No entity defined.")
  else if negb (truthy (get args "api_version"))
  then return_rejected (VStr "No version defined.")
  else executor (
    shown <- toLowerCase "args.entity" (get args "entity") ;;
    emit (Output shown VNull) ;;
    entity <- toLowerCase "args.entity" (get args "entity") ;;
    emit (Http (AxiosCall "get"
      ("https://api.yext.com/v2/accounts/me/" ^^ to_string entity
         ^^ "?api_key=" ^^ to_string (get (get args "secret") "api_key")
         ^^ "&v=" ^^ to_string (get args "api_version"))
      None
      (VObj [("headers", VObj [("Allow", VStr "application/json")])]))) ;;
    chain_handler (
      try_catch
        (match axios input with
         | AxiosResolve response =>
             result <- prop response "data" ;;
             emit (SetContext (to_string (get args "store")) result) ;;
             resolve
         | AxiosReject error => throw error
         end)
        (fun error =>
           message <- prop error "message" ;;
           if truthy (get args "stopOnError") then reject message
           else
             (* result = { "error": error.message }, which nothing reads *)
             resolve))).

(** [await axios.<method>(...)] *)
Definition await_axios (input : world) (r : request) : M value :=
  emit (Http r) ;;
  match axios input with
  | AxiosResolve response => ret response
  | AxiosReject error => throw error
  end.

(** [response.data.result] *)
Definition data_result (response : value) : M value :=
  data <- prop response "data" ;;
  prop data "result".

(** The [catch] block of the ServiceNow connectors. *)
Definition on_error (store stopOnError error : value) : M unit :=
  message <- prop error "message" ;;
  if truthy stopOnError then throw (new_Error message)
  else addToContext store (VObj [("error", message)]) "simple".

Definition json_headers : value :=
  VObj [("Accept", VStr "application/json");
        ("Content-Type", VStr "application/json")].

Definition basic_auth (username password : value) : value :=
  VObj [("username", username); ("password", password)].

Definition GETFromTable (input : world) (args : value) : M unit :=
  (* validate node arguments *)
  let secret := get args "secret" in
  let tableName := get args "tableName" in
  let store := get args "store" in
  let stopOnError := get args "stopOnError" in
  let limit := get args "limit" in
  let assigned_to := get args "assigned_to" in
  let caller_id := get args "caller_id" in
  check secret "Secret not defined." ;;
  check tableName "Table name not defined." ;;
  check store "Context store not defined." ;;
  check_defined stopOnError "Stop on error flag not defined." ;;
  (* validate secrets *)
  let username := get secret "username" in
  let password := get secret "password" in
  let instance := get secret "instance" in
  check username "Secret is missing the 'username' field." ;;
  check password "Secret is missing the 'password' field." ;;
  check instance "Secret is missing the 'instance' field." ;;
  try_catch (
    let options := VObj [
      ("headers", VObj [("Accept", VStr "application/json")]);
      ("auth", basic_auth username password);
      ("params", VObj [
         ("sysparm_limit", limit);
         ("caller_id", caller_id);
         ("sysparm_query", VStr "ORDERBYDESCnumber");
         ("sysparm_display_value", VBool true)])] in
    let options :=
      if truthy assigned_to
      then set_prop options "params"
             (set_prop (get options "params") "assigned_to" assigned_to)
      else options in
    response <- await_axios input
      (AxiosCall "get"
         (to_string instance ^^ "/api/now/table/" ^^ to_string tableName)
         None options) ;;
    result <- data_result response ;;
    addToContext store result "simple")
  (on_error store stopOnError) ;;
  return_input.

Definition POSTToTable (input : world) (args : value) : M unit :=
  (* validate node arguments *)
  let secret := get args "secret" in
  let tableName := get args "tableName" in
  let data := get args "data" in
  let store := get args "store" in
  let stopOnError := get args "stopOnError" in
  check secret "Secret not defined." ;;
  check tableName "Table name not defined." ;;
  check data "Data to post not defined." ;;
  check store "Context store not defined." ;;
  check_defined stopOnError "Stop on error flag not defined." ;;
  (* validate secrets *)
  let username := get secret "username" in
  let password := get secret "password" in
  let instance := get secret "instance" in
  check username "Secret is missing the 'username' field." ;;
  check password "Secret is missing the 'password' field." ;;
  check instance "Secret is missing the 'instance' field." ;;
  try_catch (
    response <- await_axios input
      (AxiosCall "post"
         (to_string instance ^^ "/api/now/table/" ^^ to_string tableName)
         (Some data)
         (VObj [("headers", json_headers);
                ("auth", basic_auth username password)])) ;;
    result <- data_result response ;;
    addToContext store result "simple")
  (on_error store stopOnError) ;;
  return_input.

Definition PatchRecordInTable (input : world) (args : value) : M unit :=
  (* validate node arguments *)
  let secret := get args "secret" in
  let tableName := get args "tableName" in
  let data := get args "data" in
  let sysId := get args "sysId" in
  let store := get args "store" in
  let stopOnError := get args "stopOnError" in
  check secret "Secret not defined." ;;
  check tableName "Table name not defined." ;;
  check data "Data to post not defined." ;;
  check sysId "Sys Id not defined." ;;
  check store "Context store not defined." ;;
  check_defined stopOnError "Stop on error flag not defined." ;;
  (* validate secrets *)
  let username := get secret "username" in
  let password := get secret "password" in
  let instance := get secret "instance" in
  check username "Secret is missing the 'username' field." ;;
  check password "Secret is missing the 'password' field." ;;
  check instance "Secret is missing the 'instance' field." ;;
  try_catch (
    response <- await_axios input
      (AxiosCall "patch"
         (to_string instance ^^ "/api/now/table/" ^^ to_string tableName
            ^^ "/" ^^ to_string sysId)
         (Some data)
         (VObj [("headers", json_headers);
                ("auth", basic_auth username password)])) ;;
    result <- data_result response ;;
    addToContext store result "simple")
  (on_error store stopOnError) ;;
  return_input.

Definition DeleteFromTable (input : world) (args : value) : M unit :=
  (* validate node arguments *)
  let secret := get args "secret" in
  let tableName := get args "tableName" in
  let sysId := get args "sysId" in
  let store := get args "store" in
  let stopOnError := get args "stopOnError" in
  check secret "Secret not defined." ;;
  check tableName "Table name not defined." ;;
  check sysId "Sys Id not defined." ;;
  check store "Context store not defined." ;;
  check_defined stopOnError "Stop on error flag not defined." ;;
  (* validate secrets *)
  let username := get secret "username" in
  let password := get secret "password" in
  let instance := get secret "instance" in
  check username "Secret is missing the 'username' field." ;;
  check password "Secret is missing the 'password' field." ;;
  check instance "Secret is missing the 'instance' field." ;;
  try_catch (
    _ <- await_axios input
      (AxiosCall "delete"
         (to_string instance ^^ "/api/now/table/" ^^ to_string tableName
            ^^ "/" ^^ to_string sysId)
         None
         (VObj [("headers", json_headers);
                ("auth", basic_auth username password)])) ;;
    addToContext store
      (VStr ("succefully deleted entry with id: " ^^ to_string sysId))
      "simple")
  (on_error store stopOnError) ;;
  return_input.

Definition GETAttachments (input : world) (args : value) : M unit :=
  (* validate node arguments *)
  let secret := get args "secret" in
  let store := get args "store" in
  let stopOnError := get args "stopOnError" in
  check secret "Secret not defined." ;;
  check store "Context store not defined." ;;
  check_defined stopOnError "Stop on error flag not defined." ;;
  (* validate secrets *)
  let username := get secret "username" in
  let password := get secret "password" in
  let instance := get secret "instance" in
  check username "Secret is missing the 'username' field." ;;
  check password "Secret is missing the 'password' field." ;;
  check instance "Secret is missing the 'instance' field." ;;
  try_catch (
    response <- await_axios input
      (AxiosCall "get"
         (to_string instance ^^ "/api/now/attachment")
         None
         (VObj [("headers", json_headers);
                ("auth", basic_auth username password);
                ("params", VObj [("sysparm_limit", get args "limit");
                                 ("sysparm_query", get args "query")])])) ;;
    result <- data_result response ;;
    addToContext store result "simple")
  (on_error store stopOnError) ;;
  return_input.

Definition GETAttachmentById (input : world) (args : value) : M unit :=
  (* validate node arguments *)
  let secret := get args "secret" in
  let sysId := get args "sysId" in
  let store := get args "store" in
  let stopOnError := get args "stopOnError" in
  check secret "Secret not defined." ;;
  check sysId "Sys Id not defined." ;;
  check store "Context store not defined." ;;
  check_defined stopOnError "Stop on error flag not defined." ;;
  (* validate secrets *)
  let username := get secret "username" in
  let password := get secret "password" in
  let instance := get secret "instance" in
  check username "Secret is missing the 'username' field." ;;
  check password "Secret is missing the 'password' field." ;;
  check instance "Secret is missing the 'instance' field." ;;
  try_catch (
    response <- await_axios input
      (AxiosCall "get"
         (to_string instance ^^ "/api/now/attachment/" ^^ to_string sysId)
         None
         (VObj [("headers", json_headers);
                ("auth", basic_auth username password)])) ;;
    result <- data_result response ;;
    addToContext store result "simple")
  (on_error store stopOnError) ;;
  return_input.

Definition POSTAttachment (input : world) (args : value) : M unit :=
  (* validate node arguments *)
  let secret := get args "secret" in
  let tableName := get args "tableName" in
  let tableSysId := get args "tableSysId" in
  let fileName := get args "fileName" in
  let fileLocation := get args "fileLocation" in
  let store := get args "store" in
  let stopOnError := get args "stopOnError" in
  check secret "Secret not defined." ;;
  check tableName "Table name not defined." ;;
  check tableSysId "Table sys Id not defined." ;;
  check fileName "File name not defined." ;;
  check fileLocation "File location not defined." ;;
  check store "Context store not defined." ;;
  check_defined stopOnError "Stop on error flag not defined." ;;
  (* validate secrets *)
  let username := get secret "username" in
  let password := get secret "password" in
  let instance := get secret "instance" in
  check username "Secret is missing the 'username' field." ;;
  check password "Secret is missing the 'password' field." ;;
  check instance "Secret is missing the 'instance' field." ;;
  try_catch (
    file <-
      (match download input with
       | DownloadRefused e => throw e
       | DownloadError err =>
           emit (Http (HttpsGet fileLocation)) ;;
           emit (Uncaught err) ;;
           hang
       | DownloadResponse response =>
           emit (Http (HttpsGet fileLocation)) ;;
           ret response
       end) ;;
    post <- await_axios input
      (AxiosCall "post"
         (to_string instance ^^ "/api/now/attachment/file")
         (Some file)
         (VObj [("headers", VObj [
                   ("Accept", VStr "application/json");
                   ("Content-Type", VStr "multipart/form-data")]);
                ("auth", basic_auth username password);
                ("params", VObj [("table_name", tableName);
                                 ("table_sys_id", tableSysId);
                                 ("file_name", fileName)])])) ;;
    result <- data_result post ;;
    addToContext store result "simple")
  (on_error store stopOnError) ;;
  return_input.

Definition DeleteAttachment (input : world) (args : value) : M unit :=
  (* validate node arguments *)
  let secret := get args "secret" in
  let sysId := get args "sysId" in
  let store := get args "store" in
  let stopOnError := get args "stopOnError" in
  check secret "Secret not defined." ;;
  check sysId "Sys Id not defined." ;;
  check store "Context store not defined." ;;
  check_defined stopOnError "Stop on error flag not defined." ;;
  (* validate secrets *)
  let username := get secret "username" in
  let password := get secret "password" in
  let instance := get secret "instance" in
  check username "Secret is missing the 'username' field." ;;
  check password "Secret is missing the 'password' field." ;;
  check instance "Secret is missing the 'instance' field." ;;
  try_catch (
    _ <- await_axios input
      (AxiosCall "delete"
         (to_string instance ^^ "/api/now/attachment/" ^^ to_string sysId)
         None
         (VObj [("headers", json_headers);
                ("auth", basic_auth username password)])) ;;
    addToContext store
      (VStr ("succefully deleted attachment with id: " ^^ to_string sysId))
      "simple")
  (on_error store stopOnError) ;;
  return_input.

(* ================================================================== *)
(** * One invocation of a connector *)
(* ================================================================== *)

(** The exported functions of the three modules. *)
Module Connector.
Inductive t : Type :=
(* jira *)
| createJiraTicket | extractTicket
| getTicketStatus | getTicketAssignee | getTicketPriority
| getTicketResolution | getTicketReporter | getTicketComments
| getTicketWatchers | getTicketSummary | getAllTicketInfo
(* azure cognitive services and bing *)
| spellCheck | recognizeLanguage | extractKeyphrases
| namedEntityRecognition | bingWebSearch | bingNewsSearch
| bingImageSearch | textTranslator
(* yext *)
| GetEntity
(* service now *)
| GETFromTable | POSTToTable | PatchRecordInTable | DeleteFromTable
| GETAttachments | GETAttachmentById | POSTAttachment | DeleteAttachment.
End Connector.

Section Invocation.

Variable JSON_parse : string -> option value.

Definition body (c : Connector.t) : world -> value -> M unit :=
  match c with
  | Connector.createJiraTicket => createJiraTicket
  | Connector.extractTicket => extractTicket
  | Connector.getTicketStatus => getTicketStatus
  | Connector.getTicketAssignee => getTicketAssignee
  | Connector.getTicketPriority => getTicketPriority
  | Connector.getTicketResolution => getTicketResolution
  | Connector.getTicketReporter => getTicketReporter
  | Connector.getTicketComments => getTicketComments
  | Connector.getTicketWatchers => getTicketWatchers
  | Connector.getTicketSummary => getTicketSummary
  | Connector.getAllTicketInfo => getAllTicketInfo
  | Connector.spellCheck => spellCheck JSON_parse
  | Connector.recognizeLanguage => recognizeLanguage JSON_parse
  | Connector.extractKeyphrases => extractKeyphrases JSON_parse
  | Connector.namedEntityRecognition => namedEntityRecognition JSON_parse
  | Connector.bingWebSearch => bingWebSearch JSON_parse
  | Connector.bingNewsSearch => bingNewsSearch JSON_parse
  | Connector.bingImageSearch => bingImageSearch JSON_parse
  | Connector.textTranslator => textTranslator
  | Connector.GetEntity => GetEntity
  | Connector.GETFromTable => GETFromTable
  | Connector.POSTToTable => POSTToTable
  | Connector.PatchRecordInTable => PatchRecordInTable
  | Connector.DeleteFromTable => DeleteFromTable
  | Connector.GETAttachments => GETAttachments
  | Connector.GETAttachmentById => GETAttachmentById
  | Connector.POSTAttachment => POSTAttachment
  | Connector.DeleteAttachment => DeleteAttachment
  end.

(** The flow engine calls connector [c] with [args] in the world [input]:
    the events of the call and the promise it leaves. *)
Definition invoke (c : Connector.t) (input : world) (args : value) : state :=
  run_async (body c input args).

End Invocation.

(* ================================================================== *)
(** * The vocabulary of the properties *)
(* ================================================================== *)

(** ** Ticket-style tokens *)

Definition letter (a : ascii) : bool := between 97 122 a || between 65 90 a.
Definition capital (a : ascii) : bool := between 65 90 a.
Definition digit (a : ascii) : bool := between 48 57 a.

Definition all_of (p : ascii -> bool) (l : list ascii) : Prop :=
  Forall (fun a => p a = true) l.

(** A prefix of characters of [prefix], a hyphen, digits. *)
Definition token (prefix : ascii -> bool) (m : list ascii) : Prop :=
  exists l d,
    m = l ++ "-"%char :: d
    /\ l <> [] /\ all_of prefix l
    /\ d <> [] /\ all_of digit d.

(** [text] contains a token somewhere. *)
Definition has_token (prefix : ascii -> bool) (text : string) : Prop :=
  exists pre m post,
    list_ascii_of_string text = pre ++ m ++ post /\ token prefix m.

(** [m] is the first token of [text]: it sits in [text] with all its
    digits, and no token starts to the left of it. *)
Definition first_token (prefix : ascii -> bool) (text m : string) : Prop :=
  exists pre post,
    list_ascii_of_string text = pre ++ list_ascii_of_string m ++ post
    /\ token prefix (list_ascii_of_string m)
    /\ (forall a post', post = a :: post' -> digit a = false)
    /\ (forall pre1 pre2 m' rest,
          pre = pre1 ++ pre2 -> pre2 <> [] ->
          pre2 ++ list_ascii_of_string m ++ post = m' ++ rest ->
          ~ token prefix m').

(** ** The validation prologues, as tables *)

Inductive requirement : Type :=
| Truthy (path : list string)       (* if (!args.path) ... *)
| Defined (path : list string).     (* if (args.path === undefined) ... *)

Definition satisfied (args : value) (r : requirement) : bool :=
  match r with
  | Truthy p => truthy (path_get args p)
  | Defined p => negb (is_undefined (path_get args p))
  end.

Definition stop_flag : requirement * string :=
  (Defined ["stopOnError"], "Stop on error flag not defined.").

Definition jira_secret : list (requirement * string) :=
  [ (Truthy ["secret"; "username"], "Secret is missing the 'username' field.");
    (Truthy ["secret"; "password"], "Secret is missing the 'password' field.");
    (Truthy ["secret"; "domain"], "Secret is missing the 'domain' field.") ].

Definition servicenow_secret : list (requirement * string) :=
  [ (Truthy ["secret"; "username"], "Secret is missing the 'username' field.");
    (Truthy ["secret"; "password"], "Secret is missing the 'password' field.");
    (Truthy ["secret"; "instance"], "Secret is missing the 'instance' field.") ].

Definition jira_ticket : list (requirement * string) :=
  [ (Truthy ["secret"], "Secret not defined.");
    (Truthy ["ticket"],
       "No ticket defined. Please define a ticket like AB-1234.");
    (Truthy ["contextStore"], "Context store not defined.");
    stop_flag ] ++ jira_secret.

Definition azure_key (field message : string) : list (requirement * string) :=
  [ (Truthy ["secret"], "Secret not defined or invalid.");
    (Truthy ["secret"; "key"], "Secret not defined or invalid.");
    (Truthy [field], message) ].

Definition servicenow (fields : list (requirement * string))
  : list (requirement * string) :=
  (Truthy ["secret"], "Secret not defined.") :: fields
    ++ [ (Truthy ["store"], "Context store not defined."); stop_flag ]
    ++ servicenow_secret.

(** The checks of each connector, in the order the code makes them, with
    the message of each. *)
Definition validation (c : Connector.t) : list (requirement * string) :=
  match c with
  | Connector.createJiraTicket =>
      [ (Truthy ["secret"], "Secret not defined.");
        (Truthy ["summary"], "Summary not defined.");
        (Truthy ["projectId"], "Project Id not defined.");
        (Truthy ["epicname"], "Epicname not defined.");
        (Truthy ["description"], "Description not defined.");
        (Truthy ["contextStore"], "Context store not defined.");
        stop_flag ] ++ jira_secret
  | Connector.extractTicket =>
      [ (Truthy ["contextStore"], "Context store not defined."); stop_flag ]
  | Connector.getTicketStatus | Connector.getTicketAssignee
  | Connector.getTicketPriority | Connector.getTicketResolution
  | Connector.getTicketReporter | Connector.getTicketComments
  | Connector.getTicketWatchers | Connector.getTicketSummary
  | Connector.getAllTicketInfo => jira_ticket
  | Connector.spellCheck | Connector.recognizeLanguage
  | Connector.extractKeyphrases | Connector.namedEntityRecognition
  | Connector.textTranslator => azure_key "text" "No text defined."
  | Connector.bingWebSearch => azure_key "query" "No query defined."
  | Connector.bingNewsSearch => azure_key "term" "No news term defined."
  | Connector.bingImageSearch => azure_key "term" "No image term defined."
  | Connector.GetEntity =>
      [ (Truthy ["secret"], "Secret not defined or invalid.");
        (Truthy ["secret"; "api_key"], "Secret not defined or invalid.");
        (Truthy ["entity"], "No entity defined.");
        (Truthy ["api_version"], "No version defined.") ]
  | Connector.GETFromTable =>
      servicenow [ (Truthy ["tableName"], "Table name not defined.") ]
  | Connector.POSTToTable =>
      servicenow [ (Truthy ["tableName"], "Table name not defined.");
                   (Truthy ["data"], "Data to post not defined.") ]
  | Connector.PatchRecordInTable =>
      servicenow [ (Truthy ["tableName"], "Table name not defined.");
                   (Truthy ["data"], "Data to post not defined.");
                   (Truthy ["sysId"], "Sys Id not defined.") ]
  | Connector.DeleteFromTable =>
      servicenow [ (Truthy ["tableName"], "Table name not defined.");
                   (Truthy ["sysId"], "Sys Id not defined.") ]
  | Connector.GETAttachments => servicenow []
  | Connector.GETAttachmentById | Connector.DeleteAttachment =>
      servicenow [ (Truthy ["sysId"], "Sys Id not defined.") ]
  | Connector.POSTAttachment =>
      servicenow [ (Truthy ["tableName"], "Table name not defined.");
                   (Truthy ["tableSysId"], "Table sys Id not defined.");
                   (Truthy ["fileName"], "File name not defined.");
                   (Truthy ["fileLocation"], "File location not defined.") ]
  end.

(** The message of the first check that fails. *)
Fixpoint first_failed (table : list (requirement * string)) (args : value)
  : option string :=
  match table with
  | [] => None
  | (r, msg) :: rest =>
      if satisfied args r then first_failed rest args else Some msg
  end.

Definition first_violation (c : Connector.t) (args : value) : option string :=
  first_failed (validation c) args.

(** The Jira and ServiceNow connectors throw [new Error(msg)]; the Azure,
    Bing and Yext connectors return [Promise.reject(msg)]. *)
Definition throws_Error (c : Connector.t) : bool :=
  match c with
  | Connector.spellCheck | Connector.recognizeLanguage
  | Connector.extractKeyphrases | Connector.namedEntityRecognition
  | Connector.bingWebSearch | Connector.bingNewsSearch
  | Connector.bingImageSearch | Connector.textTranslator
  | Connector.GetEntity => false
  | _ => true
  end.

Definition validation_error (c : Connector.t) (msg : string) : value :=
  if throws_Error c then VError "Error" msg else VStr msg.

(** A call that ends in its validation: nothing has happened. *)
Definition refused (reason : value) : state :=
  {| trace := []; promise := Rejected reason |}.

(** ** Store locations and failures *)

(** The location a connector is configured to write to. *)
Definition store_slot (c : Connector.t) (args : value) : slot :=
  match c with
  | Connector.createJiraTicket | Connector.extractTicket
  | Connector.getTicketStatus | Connector.getTicketAssignee
  | Connector.getTicketPriority | Connector.getTicketResolution
  | Connector.getTicketReporter | Connector.getTicketComments
  | Connector.getTicketWatchers | Connector.getTicketSummary
  | Connector.getAllTicketInfo =>
      ContextSlot (to_string (get args "contextStore"))
  | Connector.spellCheck | Connector.recognizeLanguage
  | Connector.extractKeyphrases | Connector.namedEntityRecognition
  | Connector.textTranslator =>
      if truthy (get args "writeToContext")
      then ContextSlot (to_string (get args "store"))
      else InputSlot (to_string (get args "store"))
  | Connector.bingWebSearch | Connector.bingNewsSearch
  | Connector.bingImageSearch => InputSlot (to_string (get args "store"))
  | _ => ContextSlot (to_string (get args "store"))
  end.

(** The message of an error object handed over by a client. *)
Definition message_of (e : value) : option value :=
  if nullish e then None else Some (get e "message").

Definition axios_failure (input : world) : option value :=
  match axios input with
  | AxiosReject e => message_of e
  | AxiosResolve _ => None
  end.

Definition response_failure (input : world) : option value :=
  match https input with
  | ResponseError _ e => message_of e
  | _ => None
  end.

(** An error of the Jira client that carries [errorMessages]. *)
Definition jira_failure (input : world) : option value :=
  let e := jira_error (jira input) in
  if truthy (js_and e (get e "errorMessages"))
  then Some (extract_errorMessage e) else None.

Definition upload_failure (input : world) : option value :=
  match download input with
  | DownloadRefused e => message_of e
  | DownloadResponse _ => axios_failure input
  | DownloadError _ => None
  end.

Inductive family : Type :=
| JiraCreate | TextOnly | JiraIssue | CognitiveText | WebSearch
| SilentSearch | Translator | Yext | ServiceNow | ServiceNowUpload.

Definition family_of (c : Connector.t) : family :=
  match c with
  | Connector.createJiraTicket => JiraCreate
  | Connector.extractTicket => TextOnly
  | Connector.getTicketStatus | Connector.getTicketAssignee
  | Connector.getTicketPriority | Connector.getTicketResolution
  | Connector.getTicketReporter | Connector.getTicketComments
  | Connector.getTicketWatchers | Connector.getTicketSummary
  | Connector.getAllTicketInfo => JiraIssue
  | Connector.spellCheck | Connector.recognizeLanguage
  | Connector.extractKeyphrases | Connector.namedEntityRecognition =>
      CognitiveText
  | Connector.bingWebSearch => WebSearch
  | Connector.bingNewsSearch | Connector.bingImageSearch => SilentSearch
  | Connector.textTranslator => Translator
  | Connector.GetEntity => Yext
  | Connector.POSTAttachment => ServiceNowUpload
  | _ => ServiceNow
  end.

(** The failures a connector records when it is told to continue: the
    message [m] that ends up in [{ error: m }]. *)
Definition recorded_failure (c : Connector.t) (input : world) : option value :=
  match family_of c with
  | JiraIssue => jira_failure input
  | CognitiveText | WebSearch => response_failure input
  | ServiceNow => axios_failure input
  | ServiceNowUpload => upload_failure input
  | JiraCreate | TextOnly | SilentSearch | Translator | Yext => None
  end.

(** The failures a connector aborts on when it is told to stop: the reason
    the promise is rejected with. *)
Definition abort_reason (c : Connector.t) (input : world) (args : value)
  : option value :=
  match family_of c with
  | JiraCreate =>
      let e := jira_error (jira input) in
      if truthy e
      then Some (VStr ("Error: " ^^ to_string (extract_errorMessage e)
                         ^^ ". Please check your Cognigy Secret, too."))
      else None
  | JiraIssue =>
      match jira_failure input with
      | Some m => Some m
      | None => if truthy (jira_error (jira input))
                then Some (VStr "Error while getting Jira issue.")
                else None
      end
  | CognitiveText | WebSearch => response_failure input
  | Yext =>
      match get args "entity" with
      | VStr _ => axios_failure input
      | _ => None             (* the call is never made *)
      end
  | ServiceNow => option_map new_Error (axios_failure input)
  | ServiceNowUpload => option_map new_Error (upload_failure input)
  | TextOnly | SilentSearch | Translator => None
  end.

(** The request failed, before or during the response. *)
Definition failed (r : https_reply) : bool :=
  match r with
  | RequestError _ | ResponseError _ _ => true
  | ResponseEnd _ => false
  end.

(** The connectors that check [stopOnError === undefined]. *)
Definition checks_stop_flag (c : Connector.t) : bool :=
  existsb (fun rm => match fst rm with
                     | Defined ["stopOnError"] => true
                     | _ => false
                     end) (validation c).

(** Bounds on the outbound calls of one invocation. *)
Definition call_bound (c : Connector.t) : nat :=
  match c with
  | Connector.POSTAttachment => 2      (* the download, then the upload *)
  | Connector.extractTicket => 0       (* no network at all *)
  | _ => 1
  end.

(** The path of [createJiraTicket] that records an error and goes on. *)
Definition records_create_error (c : Connector.t) (input : world)
    (args : value) : bool :=
  match c with
  | Connector.createJiraTicket =>
      truthy (jira_error (jira input))
      && negb (truthy (get args "stopOnError"))
  | _ => false
  end.

(** A computation that leaves the state alone and returns or throws. *)
Definition quiet {A} (m : M A) : Prop :=
  forall s, (exists v, m s = (s, Normal v)) \/ (exists e, m s = (s, Throw e)).

(** The calls and writes of one invocation are few and in order. *)
Definition economical (c : Connector.t) (input : world) (args : value)
    (st : state) : Prop :=
  length (http_calls (trace st)) <= call_bound c
  /\ (records_create_error c input args = true
      \/ length (writes (trace st)) <= 1)
  /\ writes_last (trace st) = true.

(** The call went on after an error: it is resolved and has written
    [{ error: m }], and nothing else, to the configured store. *)
Definition recorded (c : Connector.t) (args m : value) (st : state) : Prop :=
  promise st = Resolved
  /\ writes (trace st) = [(store_slot c args, VObj [("error", m)])].

(** The call stopped on an error: it is rejected and has written nothing. *)
Definition aborted (reason : value) (st : state) : Prop :=
  promise st = Rejected reason /\ writes (trace st) = [].

(** [issue.fields && issue.fields.a && issue.fields.a.b || null], as a
    value. *)
Definition projected (issue : value) (a b : string) : value :=
  let fields := get issue "fields" in
  js_or (if truthy fields
         then let fa := get fields a in
              if truthy fa then get fa b else fa
         else fields) VNull.

(** The object [getTicketSummary] builds from an issue. *)
Definition summary (issue : value) : value :=
  VObj [ ("ticket", js_or (get issue "key") VNull);
         ("type", projected issue "issuetype" "name");
         ("project", projected issue "project" "name");
         ("status", projected issue "status" "name");
         ("assignedTo", projected issue "assignee" "emailAddress");
         ("reportedBy", projected issue "reporter" "emailAddress");
         ("resolution", projected issue "resolution" "name");
         ("comments", projected issue "comment" "comments") ].

(** The projection of [getTicketSummary]: result field and source path. *)
Definition summary_projection : list (string * list string) :=
  [ ("type", ["fields"; "issuetype"; "name"]);
    ("project", ["fields"; "project"; "name"]);
    ("status", ["fields"; "status"; "name"]);
    ("assignedTo", ["fields"; "assignee"; "emailAddress"]);
    ("reportedBy", ["fields"; "reporter"; "emailAddress"]);
    ("resolution", ["fields"; "resolution"; "name"]);
    ("comments", ["fields"; "comment"; "comments"]) ].

(** [[a-zA-Z]] and the pattern of a token with a given class of prefix
    characters; [ticket_pattern] is [token_pattern letters]. *)
Definition letters : Regex.cls :=
  Regex.Union (Regex.Range "a" "z") (Regex.Range "A" "Z").

Definition token_pattern (prefix : Regex.cls) : Regex.pattern :=
  [ Regex.Many1 prefix; Regex.One (Regex.Lit "-"); Regex.Many1 Regex.Digit ].

(** The string [extractTicket] stores for a text, by the leftmost match. *)
Definition extracted (text : string) : value :=
  match Regex.search ticket_pattern (list_ascii_of_string text) with
  | Some m => VStr (string_of_list_ascii m)
  | None => VStr "No ticket found"
  end.

(** ** Sample worlds and arguments *)

(** Two stand-ins for [JSON.parse]: one that rejects and one that accepts
    every body. *)
Definition no_JSON : string -> option value := fun _ => None.
Definition any_JSON : string -> option value := fun _ => Some (VObj []).

Definition ECONNREFUSED : value := VError "Error" "connect ECONNREFUSED".

(** Nothing can be reached: every client fails to connect. *)
Definition offline : world := {|
  input_text := VStr "";
  jira := {| jira_error := ECONNREFUSED; jira_issue := VUndef |};
  axios := AxiosReject ECONNREFUSED;
  https := RequestError ECONNREFUSED;
  request_cb := {| request_err := ECONNREFUSED; request_res := VUndef;
                   request_body := VUndef |};
  download := DownloadError ECONNREFUSED;
  uuid := "00000000-0000-4000-8000-000000000000"
|}.

(** The user said [text]. *)
Definition hearing (text : string) : world := {|
  input_text := VStr text;
  jira := jira offline; axios := axios offline; https := https offline;
  request_cb := request_cb offline; download := download offline;
  uuid := uuid offline
|}.

(** The Jira client calls back with [(error, issue)]. *)
Definition jira_says (error issue : value) : world := {|
  input_text := input_text offline;
  jira := {| jira_error := error; jira_issue := issue |};
  axios := axios offline; https := https offline;
  request_cb := request_cb offline; download := download offline;
  uuid := uuid offline
|}.

(** The download succeeds and the axios call settles as [reply]. *)
Definition axios_says (reply : axios_reply) : world := {|
  input_text := input_text offline;
  jira := jira offline; axios := reply; https := https offline;
  request_cb := request_cb offline;
  download := DownloadResponse (VStr "<stream>");
  uuid := uuid offline
|}.

(** The [https] request goes as [reply]. *)
Definition https_says (reply : https_reply) : world := {|
  input_text := input_text offline;
  jira := jira offline; axios := axios offline; https := reply;
  request_cb := request_cb offline; download := download offline;
  uuid := uuid offline
|}.

Definition jira_credentials : value :=
  VObj [("username", VStr "bot"); ("password", VStr "hunter2");
        ("domain", VStr "jira.example.com")].

Definition servicenow_credentials : value :=
  VObj [("username", VStr "bot"); ("password", VStr "hunter2");
        ("instance", VStr "https://dev.service-now.com")].

Definition extract_args (stop : bool) : value :=
  VObj [("contextStore", VStr "ticket"); ("stopOnError", VBool stop)].

Definition ticket_args (stop : bool) : value :=
  VObj [("secret", jira_credentials); ("ticket", VStr "T-1");
        ("contextStore", VStr "ticket"); ("stopOnError", VBool stop)].

Definition create_args (stop : bool) : value :=
  VObj [("secret", jira_credentials); ("summary", VStr "Printer on fire");
        ("projectId", VStr "OPS"); ("epicname", VStr "Hardware");
        ("description", VStr "It burns."); ("contextStore", VStr "ticket");
        ("stopOnError", VBool stop)].

Definition table_args (stop : bool) : value :=
  VObj [("secret", servicenow_credentials); ("tableName", VStr "incident");
        ("limit", VNum 5); ("caller_id", VStr "alice");
        ("assigned_to", VStr "bob"); ("store", VStr "rows");
        ("stopOnError", VBool stop)].

(** The same without the [username] of the secret. *)
Definition anonymous_table_args : value :=
  VObj [("secret", VObj [("password", VStr "hunter2");
                         ("instance", VStr "https://dev.service-now.com")]);
        ("tableName", VStr "incident"); ("store", VStr "rows");
        ("stopOnError", VBool false)].

(** Ticket arguments without [stopOnError]. *)
Definition unflagged_ticket_args : value :=
  VObj [("secret", jira_credentials); ("ticket", VStr "T-1");
        ("contextStore", VStr "ticket")].

(** An issue as the mock of the summary test returns it, and the rows of a
    table. *)
Definition sample_issue : value :=
  VObj [("key", VStr "T-1");
        ("fields", VObj [
           ("status", VObj [("name", VStr "Open")]);
           ("assignee", VObj [("emailAddress", VStr "a@b.com")])])].

Definition sample_rows : list value :=
  [ VObj [("number", VStr "INC0010002")];
    VObj [("number", VStr "INC0010001")] ].

Definition attachment_args (stop : bool) : value :=
  VObj [("secret", servicenow_credentials); ("tableName", VStr "incident");
        ("tableSysId", VStr "42"); ("fileName", VStr "log.txt");
        ("fileLocation", VStr "https://files.example.com/log.txt");
        ("store", VStr "rows"); ("stopOnError", VBool stop)].

(** Arguments of the Azure, Bing and Yext connectors: a complete set, and
    one that leaves out [store] and [stopOnError]. *)
Definition cognitive_args (stop : bool) : value :=
  VObj [("secret", VObj [("key", VStr "k3y"); ("api_key", VStr "k3y")]);
        ("text", VStr "helo wrld"); ("query", VStr "rocq prover");
        ("term", VStr "rocq prover"); ("language", VStr "en");
        ("entity", VStr "Locations"); ("api_version", VStr "20190424");
        ("writeToContext", VBool true); ("store", VStr "answer");
        ("stopOnError", VBool stop)].

Definition bare_cognitive_args : value :=
  VObj [("secret", VObj [("key", VStr "k3y"); ("api_key", VStr "k3y")]);
        ("text", VStr "helo wrld"); ("query", VStr "rocq prover");
        ("term", VStr "rocq prover");
        ("entity", VStr "Locations"); ("api_version", VStr "20190424")].

(** ** Further vocabulary *)


(** The ServiceNow connectors that store [response.data.result]. *)
Definition stores_result (c : Connector.t) : bool :=
  match c with
  | Connector.GETFromTable | Connector.POSTToTable
  | Connector.PatchRecordInTable | Connector.GETAttachments
  | Connector.GETAttachmentById | Connector.POSTAttachment => true
  | _ => false
  end.

(** The ServiceNow connectors that store a confirmation, and its wording. *)
Definition confirmation (c : Connector.t) : option string :=
  match c with
  | Connector.DeleteFromTable => Some "succefully deleted entry with id: "
  | Connector.DeleteAttachment =>
      Some "succefully deleted attachment with id: "
  | _ => None
  end.

(** The download of [POSTAttachment] hands over a response (the other
    connectors download nothing). *)
Definition downloaded (c : Connector.t) (input : world) : bool :=
  match c with
  | Connector.POSTAttachment =>
      match download input with
      | DownloadResponse _ => true
      | _ => false
      end
  | _ => true
  end.

(** What [response.data.result] evaluates to: the value, or the [TypeError]
    of the read that fails. *)
Definition result_of (response : value) : value + value :=
  if nullish response then inr (TypeError_read response "data")
  else if nullish (get response "data")
       then inr (TypeError_read (get response "data") "result")
       else inl (get (get response "data") "result").

(** The field of the issue each single-field getter of Jira reads. *)
Definition field_name (c : Connector.t) : option string :=
  match c with
  | Connector.getTicketStatus => Some "status"
  | Connector.getTicketAssignee => Some "assignee"
  | Connector.getTicketPriority => Some "priority"
  | Connector.getTicketResolution => Some "resolution"
  | Connector.getTicketReporter => Some "reporter"
  | Connector.getTicketComments => Some "comment"
  | Connector.getTicketWatchers => Some "watches"
  | _ => None
  end.

(** The request every Jira getter sends. *)
Definition getIssue_request (args : value) : event :=
  Http (jira_client (get (get args "secret") "domain")
          (get (get args "secret") "username")
          (get (get args "secret") "password")
          "issue.getIssue" (VObj [("issueKey", get args "ticket")])).

(** The name of the assignee in the issue [createJiraTicket] creates. *)
Definition assignee_of (r : request) : value :=
  match r with
  | JiraCall _ _ _ payload =>
      path_get payload ["fields"; "assignee"; "name"]
  | _ => VUndef
  end.

(** The connectors that parse the body of an [https] response. *)
Definition parses_body (c : Connector.t) : bool :=
  match family_of c with
  | CognitiveText | WebSearch | SilentSearch => true
  | _ => false
  end.

(** The body a response has delivered when it ends. *)
Definition delivered (input : world) : option string :=
  match https input with
  | ResponseEnd chunks => Some (String.concat "" chunks)
  | _ => None
  end.

(** The request [GetEntity] sends for an entity name. *)
Definition yext_request (args : value) (entity : string) : event :=
  Http (AxiosCall "get"
    ("https://api.yext.com/v2/accounts/me/" ^^ lower entity
       ^^ "?api_key=" ^^ to_string (get (get args "secret") "api_key")
       ^^ "&v=" ^^ to_string (get args "api_version"))
    None
    (VObj [("headers", VObj [("Allow", VStr "application/json")])])).

(** The upload of [POSTAttachment], with the file it sends. *)
Definition upload_request (args file : value) : event :=
  Http (AxiosCall "post"
    (to_string (get (get args "secret") "instance")
       ^^ "/api/now/attachment/file")
    (Some file)
    (VObj [("headers", VObj [
              ("Accept", VStr "application/json");
              ("Content-Type", VStr "multipart/form-data")]);
           ("auth", basic_auth (get (get args "secret") "username")
                      (get (get args "secret") "password"));
           ("params", VObj [("table_name", get args "tableName");
                            ("table_sys_id", get args "tableSysId");
                            ("file_name", get args "fileName")])])).

(** The error [extractTicket] meets when the text of the input is not a
    string. *)
Definition match_error (text : value) : value :=
  if nullish text then TypeError_read text "match"
  else TypeError_not_a_function "input.input.text.match".

Definition is_string (v : value) : bool :=
  match v with VStr _ => true | _ => false end.




Fixpoint every (p : ascii -> bool) (s : string) : bool :=
  match s with
  | EmptyString => true
  | String a s' => p a && every p s'
  end.

Definition plain (a : ascii) : bool := (code a <? 128)%nat.

(** The download goes as [reply]; the input carries [text]. *)
Definition download_says (reply : download_reply) : world := {|
  input_text := input_text offline;
  jira := jira offline; axios := axios offline; https := https offline;
  request_cb := request_cb offline; download := reply;
  uuid := uuid offline
|}.

Definition receiving (text : value) : world := {|
  input_text := text;
  jira := jira offline; axios := axios offline; https := https offline;
  request_cb := request_cb offline; download := download offline;
  uuid := uuid offline
|}.

(** The message of the test of the secret, which every connector but
    [extractTicket] makes first. *)
Definition secret_message (c : Connector.t) : string :=
  if throws_Error c then "Secret not defined."
  else "Secret not defined or invalid.".

(** The request of a ServiceNow connector got an answer: the download, if
    there is one, handed over a response, and the axios promise was
    resolved, or rejected with an error object. *)
Definition answered (c : Connector.t) (input : world) : bool :=
  match family_of c with
  | ServiceNow | ServiceNowUpload =>
      downloaded c input
      && match axios input with
         | AxiosResolve _ => true
         | AxiosReject e => negb (nullish e)
         end
  | _ => false
  end.

(* ================================================================== *)
(** * The regular expression matcher *)
(* ================================================================== *)

Import Regex.

Lemma many_sound c k s m :
  (forall s' m', k s' = Some m' -> exists rest, s' = m' ++ rest) ->
  many c k s = Some m ->
  exists l r rest,
    m = l ++ r /\ s = l ++ r ++ rest /\ l <> []
    /\ Forall (fun a => in_cls c a = true) l
    /\ k (r ++ rest) = Some r.
Proof.
  intros Hk. revert m.
  induction s as [|a s IH]; simpl; intros m H; [discriminate|].
  destruct (in_cls c a) eqn:Ha; [|discriminate].
  destruct (many c k s) as [m1|] eqn:Hm.
  - injection H as <-.
    destruct (IH _ eq_refl) as (l & r & rest & -> & -> & Hl & Hall & Hr).
    exists (a :: l), r, rest. repeat split; auto. discriminate.
  - destruct (k s) as [m2|] eqn:Hks; simpl in H; [|discriminate].
    injection H as <-.
    destruct (Hk _ _ Hks) as (rest & ->).
    exists [a], m2, rest. repeat split; auto. discriminate.
Qed.

Lemma match_here_sound p :
  forall s m, match_here p s = Some m ->
              lang p m /\ exists rest, s = m ++ rest.
Proof.
  induction p as [|[c|c] p IH]; simpl; intros s m H.
  - injection H as <-. split; [constructor | now exists s].
  - destruct s as [|a s]; [discriminate|].
    destruct (in_cls c a) eqn:Ha; [|discriminate].
    destruct (match_here p s) as [m'|] eqn:Hm; simpl in H; [|discriminate].
    injection H as <-.
    destruct (IH _ _ Hm) as (Hl & rest & ->).
    split; [now constructor | now exists rest].
  - destruct (many_sound c (match_here p) s m) as
        (l & r & rest & -> & -> & Hl & Hall & Hr); auto.
    + intros s' m' Hs'. now destruct (IH _ _ Hs').
    + destruct (IH _ _ Hr) as (Hlang & _).
      split; [now constructor|].
      exists rest. now rewrite app_assoc.
Qed.

Lemma many_complete c k l s :
  l <> [] -> Forall (fun a => in_cls c a = true) l ->
  k s <> None -> many c k (l ++ s) <> None.
Proof.
  induction l as [|a l IH]; intros Hne Hall Hk; [congruence|].
  inversion Hall as [|? ? Ha Hall']; subst. simpl. rewrite Ha.
  destruct l as [|b l].
  - simpl. destruct (many c k s); [discriminate|].
    destruct (k s); [discriminate | congruence].
  - specialize (IH ltac:(discriminate) Hall' Hk).
    destruct (many c k ((b :: l) ++ s)); [discriminate | congruence].
Qed.

Lemma match_here_complete p m :
  lang p m -> forall rest, match_here p (m ++ rest) <> None.
Proof.
  induction 1 as [|c a p m Ha Hl IH|c l p m Hne Hall Hl IH]; intros rest; simpl.
  - discriminate.
  - rewrite Ha. destruct (match_here p (m ++ rest)) eqn:E; simpl; [discriminate|].
    now apply IH in E.
  - rewrite <- app_assoc. now apply many_complete.
Qed.

(** A [+] that cannot go on past [l] takes exactly [l]. *)
Lemma many_exact c k l s r :
  l <> [] -> Forall (fun a => in_cls c a = true) l ->
  (forall a s', s = a :: s' -> in_cls c a = false) ->
  k s = Some r -> many c k (l ++ s) = Some (l ++ r).
Proof.
  intros Hne Hall Hstop Hk.
  assert (Hs : many c k s = None).
  { destruct s as [|a s']; simpl; auto. now rewrite (Hstop a s' eq_refl). }
  induction l as [|a l IH]; [congruence|].
  inversion Hall as [|? ? Ha Hall']; subst. simpl. rewrite Ha.
  destruct l as [|b l].
  - simpl. rewrite Hs, Hk. reflexivity.
  - rewrite IH; auto. discriminate.
Qed.

Lemma search_none p s :
  search p s = None <->
  (forall pre m post, s = pre ++ m ++ post -> ~ lang p m).
Proof.
  split.
  - induction s as [|a s IH]; simpl.
    + destruct (match_here p []) eqn:E; [discriminate|]. intros _ pre m post Hs Hl.
      destruct pre; [|discriminate]. simpl in Hs.
      apply (match_here_complete _ _ Hl post). now rewrite <- Hs.
    + destruct (match_here p (a :: s)) eqn:E; [discriminate|].
      intros Hsearch pre m post Hs Hl.
      destruct pre as [|b pre]; simpl in Hs.
      * apply (match_here_complete _ _ Hl post). now rewrite <- Hs.
      * injection Hs as -> ->. exact (IH Hsearch pre m post eq_refl Hl).
  - induction s as [|a s IH]; simpl; intros H.
    + destruct (match_here p []) eqn:E; auto.
      destruct (match_here_sound _ _ _ E) as (Hl & rest & Hs).
      exfalso. apply (H [] l rest); auto.
    + destruct (match_here p (a :: s)) eqn:E.
      * destruct (match_here_sound _ _ _ E) as (Hl & rest & Hs).
        exfalso. apply (H [] l rest); auto.
      * apply IH. intros pre m post -> Hl.
        apply (H (a :: pre) m post); auto.
Qed.

Lemma search_some p s m :
  search p s = Some m ->
  exists pre post, s = pre ++ m ++ post /\ lang p m.
Proof.
  induction s as [|a s IH]; simpl.
  - destruct (match_here p []) eqn:E; [|discriminate].
    intros [= <-]. destruct (match_here_sound _ _ _ E) as (Hl & rest & Hs).
    now exists [], rest.
  - destruct (match_here p (a :: s)) eqn:E.
    + intros [= <-]. destruct (match_here_sound _ _ _ E) as (Hl & rest & Hs).
      now exists [], rest.
    + intros H. destruct (IH H) as (pre & post & -> & Hl).
      now exists (a :: pre), post.
Qed.

(** The first match the [g] flag collects is the leftmost match. *)
Lemma scan_head p s : hd_error (scan p s 0) = search p s.
Proof.
  induction s as [|a s IH]; simpl.
  - now destruct (match_here p []).
  - now destruct (match_here p (a :: s)).
Qed.


(* ================================================================== *)
(** * Running a connector symbolically *)
(* ================================================================== *)

Ltac run_monad :=
  cbv [bind ret throw hang try_catch emit resolve reject settle prop check
       check_defined executor callback chain_handler addToContext run_async
       return_input return_rejected start];
  cbn [trace promise app].

(* ================================================================== *)
(** * The ticket pattern *)
(* ================================================================== *)

Lemma token_pattern_lang c m :
  lang (token_pattern c) m <-> token (in_cls c) m.
Proof.
  unfold token_pattern, token, all_of. split.
  - intros H.
    inversion H as [| |c0 l p m1 Hl Hall H1]; subst.
    inversion H1 as [|c0 a p m2 Ha H2|]; subst.
    inversion H2 as [| |c0 d p m3 Hd Halld H3]; subst.
    inversion H3; subst.
    cbn [in_cls] in Ha. apply Ascii.eqb_eq in Ha; subst a.
    exists l, d. rewrite app_nil_r.
    split; [reflexivity|]. split; [assumption|]. split; [exact Hall|].
    split; [assumption | exact Halld].
  - intros (l & d & -> & Hl & Hall & Hd & Halld).
    apply lang_many; [assumption | exact Hall |].
    apply lang_one; [apply Ascii.eqb_refl|].
    rewrite <- (app_nil_r d).
    apply lang_many; [assumption | exact Halld | constructor].
Qed.

Lemma ticket_pattern_lang m : lang ticket_pattern m <-> token letter m.
Proof. exact (token_pattern_lang letters m). Qed.

(** A text without a match of the token pattern has no token. *)
Lemma no_match_no_token c text :
  search (token_pattern c) (list_ascii_of_string text) = None ->
  ~ has_token (in_cls c) text.
Proof.
  intros H (pre & m & post & Hs & Ht).
  apply (proj1 (search_none _ _) H pre m post Hs).
  now apply token_pattern_lang.
Qed.

Lemma search_ticket_none text :
  search ticket_pattern (list_ascii_of_string text) = None <->
  ~ has_token letter text.
Proof.
  rewrite search_none. unfold has_token. split.
  - intros H (pre & m & post & Hs & Ht).
    apply (H pre m post Hs). now apply ticket_pattern_lang.
  - intros H pre m post Hs Hl. apply H.
    exists pre, m, post. split; auto. now apply ticket_pattern_lang.
Qed.

Lemma search_ticket_some text m :
  search ticket_pattern (list_ascii_of_string text) = Some m ->
  (exists pre post, list_ascii_of_string text = pre ++ m ++ post)
  /\ token letter m.
Proof.
  intros H. destruct (search_some _ _ _ H) as (pre & post & Hs & Hl).
  split; [now exists pre, post | now apply ticket_pattern_lang].
Qed.

(** At the place of a token whose digits end there, the pattern matches
    exactly the token. *)
Lemma match_here_token m post :
  token letter m ->
  (forall a post', post = a :: post' -> digit a = false) ->
  match_here ticket_pattern (m ++ post) = Some m.
Proof.
  intros (l & d & -> & Hl & Hall & Hd & Halld) Hstop.
  unfold ticket_pattern. cbn [match_here].
  rewrite <- app_assoc.
  apply many_exact; auto.
  - intros a s' [= <- _]. reflexivity.
  - cbn [app in_cls]. rewrite Ascii.eqb_refl.
    rewrite (many_exact Digit (fun _ => Some []) d post []); auto.
    now rewrite app_nil_r.
Qed.

Lemma search_first_token text m :
  first_token letter text m ->
  search ticket_pattern (list_ascii_of_string text)
  = Some (list_ascii_of_string m).
Proof.
  intros (pre & post & -> & Htok & Hstop & Hleft).
  induction pre as [|a pre IH].
  - cbn [app]. destruct (list_ascii_of_string m ++ post) eqn:E;
      cbn [search]; rewrite <- E, match_here_token; auto.
  - cbn [app search].
    destruct (match_here ticket_pattern
                (a :: pre ++ list_ascii_of_string m ++ post)) as [m'|] eqn:E.
    + exfalso.
      destruct (match_here_sound _ _ _ E) as (Hl & rest & Hs).
      apply (Hleft [] (a :: pre) m' rest); auto; [discriminate|].
      now apply ticket_pattern_lang.
    + apply IH. intros pre1 pre2 m' rest -> Hne Hs.
      now apply (Hleft (a :: pre1) pre2 m' rest).
Qed.

Lemma js_match_first text :
  (if truthy (js_match ticket_pattern text)
   then index0 (js_match ticket_pattern text)
   else VStr "No ticket found") = extracted text.
Proof.
  unfold js_match, extracted. rewrite <- scan_head.
  now destruct (scan ticket_pattern (list_ascii_of_string text) 0).
Qed.

Lemma extractTicket_run JSON_parse input args text :
  first_violation Connector.extractTicket args = None ->
  input_text input = VStr text ->
  invoke JSON_parse Connector.extractTicket input args =
  {| trace := [AddToContext (get args "contextStore") (extracted text) "simple"];
     promise := Resolved |}.
Proof.
  unfold first_violation; simpl.
  intros Hv Ht.
  destruct (truthy (get args "contextStore")) eqn:Hs; [|discriminate].
  destruct (is_undefined (get args "stopOnError")) eqn:Hd; [discriminate|].
  unfold invoke, body, extractTicket. rewrite Ht. run_monad.
  rewrite Hs, Hd. cbn [nullish]. rewrite <- js_match_first.
  now destruct (truthy (js_match ticket_pattern text)).
Qed.

(** C6. [extractTicket] on a text whose first ticket-style match is
    ["ABC-123"] writes exactly the string ["ABC-123"] to the configured
    store, and on a text without any letters-hyphen-digits token it writes
    the literal string ["No ticket found"]; in both cases this is the only
    event of the call and the promise is resolved. *)
Theorem C6_extractTicket_store JSON_parse input args text :
  first_violation Connector.extractTicket args = None ->
  input_text input = VStr text ->
  (first_token letter text "ABC-123" ->
   invoke JSON_parse Connector.extractTicket input args =
   {| trace := [AddToContext (get args "contextStore") (VStr "ABC-123")
                  "simple"];
      promise := Resolved |})
  /\ (~ has_token letter text ->
      invoke JSON_parse Connector.extractTicket input args =
      {| trace := [AddToContext (get args "contextStore")
                     (VStr "No ticket found") "simple"];
         promise := Resolved |}).
Proof.
  intros Hv Ht. rewrite (extractTicket_run _ _ _ _ Hv Ht). unfold extracted.
  split.
  - intros Hfirst. now rewrite (search_first_token _ _ Hfirst).
  - intros Hnone. apply search_ticket_none in Hnone. now rewrite Hnone.
Qed.

(** Every text splits into its leading digits and a rest that does not
    begin with a digit. *)
Lemma digit_run post :
  exists d rest,
    post = d ++ rest /\ all_of digit d
    /\ (forall a r, rest = a :: r -> digit a = false).
Proof.
  induction post as [|a post (d & rest & -> & Hd & Hstop)].
  - exists [], []. repeat split; [constructor | discriminate].
  - destruct (digit a) eqn:Ha.
    + exists (a :: d), rest. repeat split; auto. now constructor.
    + exists [], (a :: d ++ rest). repeat split; [constructor|].
      now intros ? ? [= <- _].
Qed.

(** The match at a place takes all the digits there are. *)
Lemma match_here_greedy m post :
  match_here ticket_pattern (m ++ post) = Some m ->
  forall a post', post = a :: post' -> digit a = false.
Proof.
  intros H a post' ->.
  destruct (digit a) eqn:Ha; [exfalso | reflexivity].
  destruct (match_here_sound _ _ _ H) as (Hl & _).
  apply ticket_pattern_lang in Hl.
  destruct Hl as (l & d & -> & Hl & Hall & Hd & Halld).
  destruct (digit_run post') as (d' & rest & -> & Hd' & Hstop).
  assert (Htok : token letter ((l ++ "-"%char :: d) ++ a :: d')).
  { exists l, (d ++ a :: d'). rewrite <- app_assoc.
    split; [reflexivity|]. split; [assumption|]. split; [assumption|].
    split; [now destruct d|].
    apply Forall_app. split; [assumption | now constructor]. }
  pose proof (match_here_token _ rest Htok Hstop) as H'.
  rewrite <- app_assoc in H'. cbn [app] in H'. cbn [app] in H.
  rewrite H in H'. injection H' as H'.
  apply (f_equal (@length ascii)) in H'.
  repeat (rewrite length_app in H' || cbn [length] in H'). lia.
Qed.

Lemma found_here s m :
  match_here ticket_pattern s = Some m ->
  exists post,
    s = m ++ post /\ token letter m
    /\ (forall a post', post = a :: post' -> digit a = false).
Proof.
  intros E. destruct (match_here_sound _ _ _ E) as (Hl & rest & Hs).
  exists rest. split; [assumption|].
  split; [now apply ticket_pattern_lang|].
  apply (match_here_greedy m). now rewrite <- Hs.
Qed.

Lemma search_is_first text m :
  search ticket_pattern (list_ascii_of_string text) = Some m ->
  first_token letter text (string_of_list_ascii m).
Proof.
  unfold first_token. rewrite list_ascii_of_string_of_list_ascii.
  generalize (list_ascii_of_string text) as s.
  assert (Hnil : forall (pre1 pre2 : list ascii), [] = pre1 ++ pre2 -> pre2 <> [] -> False).
  { intros [|? ?] pre2 Hp Hne; [|discriminate]. now apply Hne. }
  induction s as [|a s IH]; cbn [search].
  - destruct (match_here ticket_pattern []) eqn:E; [|discriminate].
    intros [= <-]. destruct (found_here _ _ E) as (post & Hs & Htok & Hstop).
    exists [], post. cbn [app].
    split; [assumption|]. split; [assumption|]. split; [assumption|].
    intros pre1 pre2 ? ? Hp Hne. now destruct (Hnil pre1 pre2).
  - destruct (match_here ticket_pattern (a :: s)) eqn:E.
    + intros [= <-]. destruct (found_here _ _ E) as (post & Hs & Htok & Hstop).
      exists [], post. cbn [app].
      split; [assumption|]. split; [assumption|]. split; [assumption|].
      intros pre1 pre2 ? ? Hp Hne. now destruct (Hnil pre1 pre2).
    + intros H. destruct (IH H) as (pre & post & -> & Htok & Hstop & Hleft).
      exists (a :: pre), post.
      split; [reflexivity|]. split; [assumption|]. split; [assumption|].
      intros [|b pre1] pre2 m' rest Hp Hne Hs Htok'.
      * cbn [app] in Hp. subst pre2. cbn [app] in Hs.
        apply ticket_pattern_lang in Htok'.
        apply (match_here_complete _ _ Htok' rest).
        now rewrite <- Hs.
      * injection Hp as <- ->. now apply (Hleft pre1 pre2 m' rest).
Qed.

(** C7, amended. The pattern of [extractTicket] takes ASCII letters of
    either case as the prefix of a ticket: for every input text the call
    writes one string to the configured store, which is the first token of
    the text made of letters, a hyphen and digits (the leftmost one, with
    all its digits) when the text has such a token, and the sentinel
    ["No ticket found"] when it has none. *)
Theorem C7_extractTicket_letters JSON_parse input args text :
  first_violation Connector.extractTicket args = None ->
  input_text input = VStr text ->
  exists stored,
    invoke JSON_parse Connector.extractTicket input args =
    {| trace := [AddToContext (get args "contextStore") (VStr stored)
                   "simple"];
       promise := Resolved |}
    /\ (first_token letter text stored
        \/ (~ has_token letter text /\ stored = "No ticket found")).
Proof.
  intros Hv Ht. rewrite (extractTicket_run _ _ _ _ Hv Ht). unfold extracted.
  destruct (search ticket_pattern (list_ascii_of_string text)) as [m|] eqn:E.
  - exists (string_of_list_ascii m). split; [reflexivity|].
    left. now apply search_is_first.
  - exists "No ticket found". split; [reflexivity|].
    right. split; [|reflexivity]. now apply search_ticket_none.
Qed.

Lemma list_ascii_of_string_app (a b : string) :
  list_ascii_of_string (a ^^ b)
  = list_ascii_of_string a ++ list_ascii_of_string b.
Proof. induction a as [|c a IH]; cbn; [reflexivity | now rewrite IH]. Qed.

Lemma first_token_at_start (m post : string) l d :
  list_ascii_of_string m = l ++ "-"%char :: d ->
  l <> [] -> forallb letter l = true ->
  d <> [] -> forallb digit d = true ->
  match list_ascii_of_string post with
  | [] => true
  | a :: _ => negb (digit a)
  end = true ->
  first_token letter (m ^^ post) m.
Proof.
  intros Hm Hl Hall Hd Halld Hpost.
  exists [], (list_ascii_of_string post). cbn [app].
  split.
  { apply list_ascii_of_string_app. }
  split.
  { exists l, d. unfold all_of. rewrite !Forall_forall.
    rewrite forallb_forall in Hall, Halld. auto. }
  split.
  { intros a post' E. rewrite E in Hpost. now apply negb_true_iff. }
  intros [|? ?] pre2 ? ? Hp Hne; [|discriminate]. now destruct Hne.
Qed.

Lemma C6_extractTicket_store_witness :
  first_violation Connector.extractTicket (extract_args false) = None
  /\ invoke no_JSON Connector.extractTicket (hearing "ABC-123 is late")
       (extract_args false)
     = {| trace := [AddToContext (VStr "ticket") (VStr "ABC-123") "simple"];
          promise := Resolved |}
  /\ invoke no_JSON Connector.extractTicket (hearing "nothing to report")
       (extract_args false)
     = {| trace := [AddToContext (VStr "ticket") (VStr "No ticket found")
                      "simple"];
          promise := Resolved |}.
Proof.
  split; [reflexivity|]. split.
  - apply (proj1 (C6_extractTicket_store no_JSON (hearing "ABC-123 is late")
                    (extract_args false) "ABC-123 is late"
                    eq_refl eq_refl)).
    apply (first_token_at_start "ABC-123" " is late"
             (list_ascii_of_string "ABC") (list_ascii_of_string "123"));
      try reflexivity; discriminate.
  - apply (proj2 (C6_extractTicket_store no_JSON (hearing "nothing to report")
                    (extract_args false) "nothing to report"
                    eq_refl eq_refl)).
    apply (no_match_no_token letters). reflexivity.
Defined.

(** C7, as stated, fails: the text ["abc-123"] has no token with a prefix
    of capital letters, and [extractTicket] stores ["abc-123"], not the
    sentinel. *)
Lemma C7_lowercase_counterexample :
  ~ has_token capital "abc-123"
  /\ invoke no_JSON Connector.extractTicket (hearing "abc-123")
       (extract_args false)
     = {| trace := [AddToContext (VStr "ticket") (VStr "abc-123") "simple"];
          promise := Resolved |}.
Proof.
  split; [|reflexivity].
  apply (no_match_no_token (Range "A" "Z")). reflexivity.
Qed.

Lemma C7_extractTicket_letters_witness :
  first_violation Connector.extractTicket (extract_args false) = None
  /\ input_text (hearing "abc-123") = VStr "abc-123"
  /\ exists stored,
       invoke no_JSON Connector.extractTicket (hearing "abc-123")
         (extract_args false)
       = {| trace := [AddToContext (VStr "ticket") (VStr stored) "simple"];
            promise := Resolved |}
       /\ (first_token letter "abc-123" stored
           \/ (~ has_token letter "abc-123" /\ stored = "No ticket found")).
Proof.
  split; [reflexivity|]. split; [reflexivity|].
  exact (C7_extractTicket_letters no_JSON (hearing "abc-123")
           (extract_args false) "abc-123" eq_refl eq_refl).
Defined.

(* ================================================================== *)
(** * Validation *)
(* ================================================================== *)

(** Case analysis on the next test the code makes. *)
Ltac next_test :=
  match goal with
  | |- context [truthy ?v] =>
      lazymatch v with
      | context [truthy _] => fail
      | _ => destruct (truthy v) eqn:?
      end
  | |- context [is_undefined ?v] => destruct (is_undefined v) eqn:?
  end.

Ltac open_connector :=
  unfold invoke, body,
    createJiraTicket, extractTicket, getTicketStatus, getTicketAssignee,
    getTicketPriority, getTicketResolution, getTicketReporter,
    getTicketComments, getTicketWatchers, jira_field, getTicketSummary,
    getAllTicketInfo, validateArgs,
    spellCheck, recognizeLanguage, extractKeyphrases, namedEntityRecognition,
    bingWebSearch, bingNewsSearch, bingImageSearch, textTranslator,
    GetEntity, GETFromTable, POSTToTable, PatchRecordInTable, DeleteFromTable,
    GETAttachments, GETAttachmentById, POSTAttachment, DeleteAttachment.

Lemma invalid_refused JSON_parse c input args msg :
  first_violation c args = Some msg ->
  invoke JSON_parse c input args = refused (validation_error c msg).
Proof.
  unfold first_violation, refused, validation_error.
  destruct c; cbn [validation throws_Error first_failed satisfied path_get
                     app jira_ticket jira_secret servicenow servicenow_secret
                     azure_key stop_flag];
    open_connector; run_monad; intros H.
  all: repeat (next_test; cbn [negb orb] in *; try discriminate;
               try (injection H as <-; reflexivity)).
Qed.

Lemma first_failed_some table args r msg :
  In (r, msg) table -> satisfied args r = false ->
  exists msg', first_failed table args = Some msg'
               /\ In msg' (map snd table).
Proof.
  induction table as [|[r' msg'] table IH]; intros Hin Hr; [contradiction|].
  cbn [first_failed map snd].
  destruct (satisfied args r') eqn:Hr'.
  - destruct Hin as [[= -> ->]|Hin]; [congruence|].
    destruct (IH Hin Hr) as (m & Hm & Hin'). exists m. split; [assumption|].
    now right.
  - exists msg'. split; [reflexivity | now left].
Qed.

Lemma refusal_of_failed_test JSON_parse c input args r msg :
  In (r, msg) (validation c) ->
  satisfied args r = false ->
  exists msg',
    In msg' (map snd (validation c))
    /\ invoke JSON_parse c input args = refused (validation_error c msg').
Proof.
  intros Hin Hr.
  destruct (first_failed_some _ _ _ _ Hin Hr) as (msg' & Hfirst & Hin').
  exists msg'. split; [assumption|]. now apply invalid_refused.
Qed.

(** C4, amended. For every connector, when a field that its validation
    tests is missing or falsy (for the stop-on-error flag of the Jira and
    ServiceNow connectors: undefined), the call is rejected with the message
    of the first failing test, whatever [stopOnError] and the rest of the
    arguments are, and nothing else happens: no outbound call, no write, no
    log.  The tested fields are those of [validation]: the store, language,
    write-to-context and stop-on-error arguments of the Azure, Bing and Yext
    connectors are not among them. *)
Theorem C4_validation_refuses JSON_parse c input args r msg :
  In (r, msg) (validation c) ->
  satisfied args r = false ->
  exists msg',
    first_violation c args = Some msg'
    /\ In msg' (map snd (validation c))
    /\ invoke JSON_parse c input args = refused (validation_error c msg').
Proof.
  intros Hin Hr.
  destruct (first_failed_some _ _ _ _ Hin Hr) as (msg' & Hfirst & Hin').
  exists msg'. split; [assumption|]. split; [assumption|].
  now apply invalid_refused.
Qed.

Lemma C4_validation_refuses_witness :
  In (Truthy ["secret"; "username"],
      "Secret is missing the 'username' field.")
     (validation Connector.GETFromTable)
  /\ satisfied anonymous_table_args (Truthy ["secret"; "username"]) = false
  /\ exists msg',
       first_violation Connector.GETFromTable anonymous_table_args
       = Some msg'
       /\ In msg' (map snd (validation Connector.GETFromTable))
       /\ invoke no_JSON Connector.GETFromTable offline anonymous_table_args
          = refused (validation_error Connector.GETFromTable msg').
Proof.
  assert (Hin : In (Truthy ["secret"; "username"],
                    "Secret is missing the 'username' field.")
                   (validation Connector.GETFromTable)).
  { cbn. tauto. }
  split; [exact Hin|]. split; [reflexivity|].
  exact (C4_validation_refuses no_JSON Connector.GETFromTable offline
           anonymous_table_args _ _ Hin eq_refl).
Defined.

(** C4, as stated, fails.  [spellCheck] declares [store] as a required
    argument and never tests it: without it the request is sent and the
    answer lands in the input under the key ["undefined"].  And a required
    flag that is falsy is accepted: [GETFromTable] with [stopOnError] false
    sends its request. *)
Lemma C4_unchecked_fields_counterexample :
  (get bare_cognitive_args "store" = VUndef
   /\ length (http_calls (trace
        (invoke any_JSON Connector.spellCheck
           (https_says (ResponseEnd ["{}"])) bare_cognitive_args))) = 1
   /\ writes (trace
        (invoke any_JSON Connector.spellCheck
           (https_says (ResponseEnd ["{}"])) bare_cognitive_args))
      = [(InputSlot "undefined", VObj [])]
   /\ promise
        (invoke any_JSON Connector.spellCheck
           (https_says (ResponseEnd ["{}"])) bare_cognitive_args)
      = Resolved)
  /\ (truthy (get (table_args false) "stopOnError") = false
      /\ length (http_calls (trace
           (invoke no_JSON Connector.GETFromTable offline
              (table_args false)))) = 1).
Proof. repeat split. Qed.

Lemma stop_flag_in_validation c :
  checks_stop_flag c = true -> In stop_flag (validation c).
Proof. destruct c; cbn; intros H; try discriminate; tauto. Qed.

Lemma stop_flag_throws_Error c :
  checks_stop_flag c = true -> throws_Error c = true.
Proof. now destruct c. Qed.

(** C5, amended. For the Jira and ServiceNow connectors (those with
    [checks_stop_flag]), an invocation in which [stopOnError] is undefined is
    rejected with an [Error] carrying one of the connector's validation
    messages, before any outbound call or write.  The Azure, Bing and Yext
    connectors never test the flag. *)
Theorem C5_stop_flag_required JSON_parse c input args :
  checks_stop_flag c = true ->
  get args "stopOnError" = VUndef ->
  exists msg,
    In msg (map snd (validation c))
    /\ invoke JSON_parse c input args = refused (VError "Error" msg).
Proof.
  intros Hc Hu.
  destruct (refusal_of_failed_test JSON_parse c input args
              (Defined ["stopOnError"]) "Stop on error flag not defined.")
    as (msg & Hin & Hrun).
  - now apply stop_flag_in_validation.
  - cbn. now rewrite Hu.
  - exists msg. split; [assumption|].
    rewrite Hrun. unfold validation_error.
    now rewrite stop_flag_throws_Error.
Qed.

Lemma C5_stop_flag_required_witness :
  checks_stop_flag Connector.getTicketStatus = true
  /\ get unflagged_ticket_args "stopOnError" = VUndef
  /\ exists msg,
       In msg (map snd (validation Connector.getTicketStatus))
       /\ invoke no_JSON Connector.getTicketStatus offline
            unflagged_ticket_args
          = refused (VError "Error" msg).
Proof.
  split; [reflexivity|]. split; [reflexivity|].
  exact (C5_stop_flag_required no_JSON Connector.getTicketStatus offline
           unflagged_ticket_args eq_refl eq_refl).
Defined.

(** C5, as stated, fails: [GetEntity] called without [stopOnError] sends
    its request and completes. *)
Lemma C5_untested_flag_counterexample :
  get bare_cognitive_args "stopOnError" = VUndef
  /\ invoke no_JSON Connector.GetEntity
       (axios_says (AxiosResolve (VObj [("data", VObj [])])))
       bare_cognitive_args
     = {| trace :=
            [ Output (VStr "locations") VNull;
              Http (AxiosCall "get"
                ("https://api.yext.com/v2/accounts/me/locations"
                   ^^ "?api_key=k3y&v=20190424")
                None
                (VObj [("headers",
                        VObj [("Allow", VStr "application/json")])]));
              SetContext "undefined" (VObj []) ];
          promise := Resolved |}.
Proof. split; reflexivity. Qed.

(* ================================================================== *)
(** * Calls and writes of one invocation *)
(* ================================================================== *)

Ltac open_helpers :=
  unfold processJiraIssue, getIssue_callback, text_analytics,
    response_handler, https_exchange, parse, store_result, toLowerCase,
    await_axios, data_result, on_error.

(** Case analysis on the reply the code looks at next. *)
Ltac next_reply :=
  match goal with
  | |- context [match axios ?i with _ => _ end] => destruct (axios i) eqn:?
  | |- context [match https ?i with _ => _ end] => destruct (https i) eqn:?
  | |- context [match download ?i with _ => _ end] =>
      destruct (download i) eqn:?
  | |- context [match ?parse ?b with Some _ => _ | None => _ end] =>
      destruct (parse b) eqn:?
  | |- context [nullish ?v] => destruct (nullish v) eqn:?
  | |- context [match get ?a ?k with VStr _ => _ | _ => _ end] =>
      destruct (get a k) eqn:?
  | |- context [match input_text ?i with VStr _ => _ | _ => _ end] =>
      destruct (input_text i) eqn:?
  end.

Ltac next_branch :=
  match goal with
  | |- context [if ?b then _ else _] => destruct b eqn:?
  end.

Ltac step :=
  first [next_test | next_reply | next_branch];
  cbn [trace promise app negb orb andb nullish TypeError_read
       TypeError_not_a_function
       ticket contextStore stopOnError username password domain] in *.

(** The assignments of [getTicketSummary] leave the state alone and hand
    back an object. *)
Lemma field_of_quiet issue a b : quiet (field_of issue a b).
Proof.
  intros s. unfold field_of. run_monad.
  destruct (nullish issue); [eauto|].
  destruct (truthy (get issue "fields")); [|eauto].
  destruct (nullish (get issue "fields")); [eauto|].
  destruct (truthy (get (get issue "fields") a)); [|eauto].
  destruct (nullish (get (get issue "fields") a)); eauto.
Qed.

Lemma assignments_quiet stmts :
  (forall k rhs, In (k, rhs) stmts -> quiet rhs) ->
  forall result s, exists r, assignments stmts result s = (s, Normal r).
Proof.
  induction stmts as [|[k rhs] stmts IH]; intros Hq result s.
  - now exists (result, None).
  - cbn [assignments]. run_monad.
    destruct (Hq k rhs (or_introl eq_refl) s) as [(v & ->)|(e & ->)].
    + apply IH. intros k' rhs' Hin. apply (Hq k' rhs'). now right.
    + now exists (result, Some e).
Qed.

Lemma summary_fields_quiet issue result s :
  exists r, assignments (summary_fields issue) result s = (s, Normal r).
Proof.
  apply assignments_quiet. intros k rhs Hin.
  cbn [summary_fields In] in Hin.
  repeat (destruct Hin as [[= <- <-]|Hin]; [try apply field_of_quiet|]);
    [|contradiction].
  intros s'. run_monad. destruct (nullish issue); eauto.
Qed.

Ltac summary_assignments :=
  match goal with
  | |- context [assignments (summary_fields ?i) ?r ?s] =>
      let x := fresh "r" in
      let e := fresh "Hr" in
      destruct (summary_fields_quiet i r s) as [x e]; rewrite e;
      destruct x as [? [?|]];
      cbn [fst snd trace promise app
           ticket contextStore stopOnError username password domain]
  end.

Ltac crunch := repeat (first [step | summary_assignments]).
(** C3, amended. One invocation of a connector issues at most one outbound
    call, except [POSTAttachment], which issues at most two (the download of
    the file, then the upload); [extractTicket] issues none.  It makes at
    most one write, the path of [createJiraTicket] that records an error
    set aside, and no outbound call ever follows a write. *)
Theorem C3_calls_and_writes JSON_parse c input args :
  length (http_calls (trace (invoke JSON_parse c input args)))
  <= call_bound c
  /\ (records_create_error c input args = true
      \/ length (writes (trace (invoke JSON_parse c input args))) <= 1)
  /\ writes_last (trace (invoke JSON_parse c input args)) = true.
Proof.
  change (economical c input args (invoke JSON_parse c input args)).
  destruct c; open_connector; open_helpers; run_monad.
  all: crunch.
  all: unfold economical;
    cbn [trace length http_calls filter is_http writes write_of
           writes_last is_write forallb negb andb call_bound
           records_create_error].
  all: repeat match goal with
              | H : truthy _ = _ |- _ => rewrite H
              end.
  all: try (split; [lia|]; split; [right; lia | reflexivity]).
  all: try (split; [lia|]; split; [left; reflexivity | reflexivity]).
Qed.

(** C3, as stated, fails.  By design, [POSTAttachment] makes two outbound
    calls: it downloads the file and uploads it.  And where the code slips:
    [createJiraTicket] told to continue writes twice after an error, the
    error object and then the issue. *)
Lemma C3_two_calls_counterexample :
  http_calls (trace
    (invoke no_JSON Connector.POSTAttachment
       (axios_says (AxiosResolve
          (VObj [("data", VObj [("result", VStr "stored")])])))
       (attachment_args false)))
  = [ Http (HttpsGet (VStr "https://files.example.com/log.txt"));
      Http (AxiosCall "post"
        "https://dev.service-now.com/api/now/attachment/file"
        (Some (VStr "<stream>"))
        (VObj [("headers", VObj [
                  ("Accept", VStr "application/json");
                  ("Content-Type", VStr "multipart/form-data")]);
               ("auth", basic_auth (VStr "bot") (VStr "hunter2"));
               ("params", VObj [("table_name", VStr "incident");
                                ("table_sys_id", VStr "42");
                                ("file_name", VStr "log.txt")])])) ]
  /\ length (writes (trace
        (invoke no_JSON Connector.createJiraTicket
           (jira_says
              (VObj [("errorMessages", VArr [VStr "project is required"])])
              VUndef)
           (create_args false)))) = 2.
Proof. split; reflexivity. Qed.

(* ================================================================== *)
(** * The error policy *)
(* ================================================================== *)

Ltac use_facts :=
  repeat match goal with
    | H : Some _ = Some _ |- _ => injection H as H; try subst
    | H : None = Some _ |- _ => discriminate H
    | H : Some _ = None |- _ => discriminate H
    | H : true = false |- _ => discriminate H
    | H : false = true |- _ => discriminate H
    end.

Ltac open_failures H :=
  cbn [recorded_failure abort_reason family_of] in H;
  unfold upload_failure, jira_failure, axios_failure, response_failure,
    message_of in H;
  cbn [option_map] in H.

Ltac open_validation H :=
  unfold first_violation in H;
  cbn [validation first_failed satisfied path_get app jira_ticket
         jira_secret servicenow servicenow_secret azure_key stop_flag] in H.

(** C1, amended. For the ServiceNow connectors, the Jira issue getters and
    the [https] connectors that listen to the response's ['error'] event
    ([spellCheck], [recognizeLanguage], [extractKeyphrases],
    [namedEntityRecognition], [bingWebSearch]): when the arguments pass
    validation, [stopOnError] is falsy and the call fails in a way the
    connector handles ([recorded_failure]: a rejected axios promise or a
    refused download URL, a Jira error that carries [errorMessages], an
    ['error'] event of the response), the call completes normally and the
    configured store location receives exactly one write, the object
    [{ error: m }], where [m] is the message the error carries. *)
Theorem C1_errors_recorded JSON_parse c input args m :
  first_violation c args = None ->
  recorded_failure c input = Some m ->
  truthy (get args "stopOnError") = false ->
  promise (invoke JSON_parse c input args) = Resolved
  /\ writes (trace (invoke JSON_parse c input args))
     = [(store_slot c args, VObj [("error", m)])].
Proof.
  change (first_violation c args = None ->
          recorded_failure c input = Some m ->
          truthy (get args "stopOnError") = false ->
          recorded c args m (invoke JSON_parse c input args)).
  intros Hv Hf Hs.
  destruct c; open_failures Hf; try discriminate Hf; open_validation Hv;
    open_connector; open_helpers; run_monad.
  all: repeat (first [step | summary_assignments]; use_facts).
  all: unfold recorded;
    cbn [trace promise writes write_of store_slot].
  all: repeat match goal with
              | H : truthy _ = _ |- _ => rewrite H
              end.
  all: try (split; reflexivity).
Qed.

Lemma C1_errors_recorded_witness :
  first_violation Connector.GETFromTable (table_args false) = None
  /\ recorded_failure Connector.GETFromTable offline
     = Some (VStr "connect ECONNREFUSED")
  /\ truthy (get (table_args false) "stopOnError") = false
  /\ promise (invoke no_JSON Connector.GETFromTable offline (table_args false))
     = Resolved
  /\ writes (trace
       (invoke no_JSON Connector.GETFromTable offline (table_args false)))
     = [(ContextSlot "rows",
         VObj [("error", VStr "connect ECONNREFUSED")])].
Proof.
  split; [reflexivity|]. split; [reflexivity|]. split; [reflexivity|].
  exact (C1_errors_recorded no_JSON Connector.GETFromTable offline
           (table_args false) (VStr "connect ECONNREFUSED")
           eq_refl eq_refl eq_refl).
Defined.

(** C1, as stated, fails, with [stopOnError] false throughout.  By design:
    a Jira getter handed an error whose [errorMessages] is an empty array
    (Jira reports field errors that way) records [{ error: undefined }], no
    message at all, and a Jira getter handed an error without
    [errorMessages] (a connection failure) rejects whatever the flag says.
    And where the code slips or has no handler: [GetEntity] builds the error
    object and drops it, [textTranslator] stores the (undefined) body,
    [bingNewsSearch] has no error listener, [createJiraTicket] writes the
    issue over the error it has recorded, and an error of an [https]
    request itself leaves the promise of [spellCheck] pending. *)
Lemma C1_unrecorded_errors_counterexample :
  (* by design *)
  writes (trace (invoke no_JSON Connector.getTicketStatus
                   (jira_says
                      (VObj [("errorMessages", VArr []);
                             ("errors",
                              VObj [("project", VStr "project is required")])])
                      VUndef)
                   (ticket_args false)))
  = [(ContextSlot "ticket", VObj [("error", VUndef)])]
  /\ invoke no_JSON Connector.getTicketStatus offline (ticket_args false)
     = {| trace :=
            [ Http (jira_client (VStr "jira.example.com") (VStr "bot")
                      (VStr "hunter2") "issue.getIssue"
                      (VObj [("issueKey", VStr "T-1")]));
              Log (VStr "error") (VStr "JIRA API has changed") ];
          promise := Rejected (VStr "Error while getting Jira issue.") |}
  (* slips and missing handlers *)
  /\ (promise (invoke no_JSON Connector.GetEntity offline
                 (cognitive_args false)) = Resolved
      /\ writes (trace (invoke no_JSON Connector.GetEntity offline
                          (cognitive_args false))) = [])
  /\ (promise (invoke no_JSON Connector.textTranslator offline
                 (cognitive_args false)) = Resolved
      /\ writes (trace (invoke no_JSON Connector.textTranslator offline
                          (cognitive_args false)))
         = [(ContextSlot "answer", VUndef)])
  /\ (promise (invoke no_JSON Connector.bingNewsSearch
                 (https_says (ResponseError [] ECONNREFUSED))
                 (cognitive_args false)) = Pending
      /\ writes (trace (invoke no_JSON Connector.bingNewsSearch
                          (https_says (ResponseError [] ECONNREFUSED))
                          (cognitive_args false))) = [])
  /\ writes (trace (invoke no_JSON Connector.createJiraTicket
                      (jira_says
                         (VObj [("errorMessages",
                                 VArr [VStr "project is required"])])
                         VUndef)
                      (create_args false)))
     = [ (ContextSlot "ticket",
          VObj [("error", VStr "project is required")]);
         (ContextSlot "ticket", VUndef) ]
  /\ (promise (invoke no_JSON Connector.spellCheck offline
                 (cognitive_args false)) = Pending
      /\ writes (trace (invoke no_JSON Connector.spellCheck offline
                          (cognitive_args false))) = []).
Proof. repeat split. Qed.

(** Where the stop-on-error policy is implemented: when the arguments pass
    validation, [stopOnError] is truthy and the call fails in a way the
    connector handles ([abort_reason]), the call is rejected and writes
    nothing.  The reason is: for the ServiceNow connectors a new [Error]
    with the message of the rejected axios promise (or of the refused
    download URL); for [GetEntity] and for the [https] connectors that
    listen to the response's ['error'] event, the message of the error; for
    the Jira issue getters the first of the [errorMessages], or a fixed
    message when the error carries none; for [createJiraTicket] the message
    wrapped in a hint at the secret. *)
Theorem errors_abort_where_handled JSON_parse c input args reason :
  first_violation c args = None ->
  abort_reason c input args = Some reason ->
  truthy (get args "stopOnError") = true ->
  promise (invoke JSON_parse c input args) = Rejected reason
  /\ writes (trace (invoke JSON_parse c input args)) = [].
Proof.
  change (first_violation c args = None ->
          abort_reason c input args = Some reason ->
          truthy (get args "stopOnError") = true ->
          aborted reason (invoke JSON_parse c input args)).
  intros Hv Hf Hs.
  destruct c; open_failures Hf; unfold option_map in Hf;
    try discriminate Hf; open_validation Hv;
    open_connector; open_helpers; run_monad.
  all: repeat (first [step | summary_assignments]; use_facts).
  all: unfold aborted;
    cbn [trace promise writes write_of store_slot].
  all: try (split; reflexivity).
Qed.

Lemma errors_abort_where_handled_witness :
  first_violation Connector.GETFromTable (table_args true) = None
  /\ abort_reason Connector.GETFromTable offline (table_args true)
     = Some (VError "Error" "connect ECONNREFUSED")
  /\ truthy (get (table_args true) "stopOnError") = true
  /\ promise (invoke no_JSON Connector.GETFromTable offline (table_args true))
     = Rejected (VError "Error" "connect ECONNREFUSED")
  /\ writes (trace
       (invoke no_JSON Connector.GETFromTable offline (table_args true)))
     = [].
Proof.
  split; [reflexivity|]. split; [reflexivity|]. split; [reflexivity|].
  exact (errors_abort_where_handled no_JSON Connector.GETFromTable offline
           (table_args true) (VError "Error" "connect ECONNREFUSED")
           eq_refl eq_refl eq_refl).
Defined.

(** C2: the code departs from the claim.  With [stopOnError] true and a
    request that fails to connect, [textTranslator] ignores the error its
    callback is handed: it stores the (undefined) body at the configured
    location and resolves, where its siblings reject.  [bingNewsSearch] and
    [bingImageSearch] install no error listener, so an error of the response
    leaves their promise pending, where [bingWebSearch] rejects with the
    message.  And no connector listens to the errors of an [https] request
    itself: when the connection fails, the promise of [spellCheck], and of
    [POSTAttachment] during the download, is never settled. *)
Lemma C2_errors_not_aborted :
  invoke no_JSON Connector.textTranslator offline (cognitive_args true)
  = {| trace :=
         [ Http (RequestCall (VObj [
             ("method", VStr "POST");
             ("baseUrl", VStr "https://api.cognitive.microsofttranslator.com/");
             ("url", VStr "translate");
             ("qs", VObj [("api-version", VStr "3.0"); ("to", VStr "en")]);
             ("headers", VObj [
                ("Ocp-Apim-Subscription-Key", VStr "k3y");
                ("Content-type", VStr "application/json");
                ("X-ClientTraceId",
                 VStr "00000000-0000-4000-8000-000000000000")]);
             ("body", VArr [VObj [("text", VStr "helo wrld")]]);
             ("json", VBool true)]));
           SetContext "answer" VUndef ];
       promise := Resolved |}
  /\ promise (invoke no_JSON Connector.bingNewsSearch
                (https_says (ResponseError [] ECONNREFUSED))
                (cognitive_args true)) = Pending
  /\ promise (invoke no_JSON Connector.bingImageSearch
                (https_says (ResponseError [] ECONNREFUSED))
                (cognitive_args true)) = Pending
  /\ promise (invoke no_JSON Connector.bingWebSearch
                (https_says (ResponseError [] ECONNREFUSED))
                (cognitive_args true))
     = Rejected (VStr "connect ECONNREFUSED")
  /\ promise (invoke no_JSON Connector.spellCheck offline
                (cognitive_args true)) = Pending
  /\ promise (invoke no_JSON Connector.POSTAttachment offline
                (attachment_args true)) = Pending.
Proof. repeat split. Qed.

(* ================================================================== *)
(** * The summary of an issue *)
(* ================================================================== *)

Lemma truthy_not_nullish v : truthy v = true -> nullish v = false.
Proof. now destruct v. Qed.

Lemma get_defined v k : get v k <> VUndef -> truthy v = true.
Proof. destruct v; cbn; congruence. Qed.

Lemma field_of_value issue a b s :
  nullish issue = false ->
  field_of issue a b s = (s, Normal (projected issue a b)).
Proof.
  intros Hi. unfold field_of, projected. run_monad. rewrite Hi.
  destruct (truthy (get issue "fields")) eqn:Hf; [|reflexivity].
  rewrite (truthy_not_nullish _ Hf).
  destruct (truthy (get (get issue "fields") a)) eqn:Ha; [|reflexivity].
  now rewrite (truthy_not_nullish _ Ha).
Qed.

(** The object [getTicketSummary] builds from an issue. *)
Lemma summary_of_issue issue s :
  nullish issue = false ->
  assignments (summary_fields issue) (VObj []) s
  = (s, Normal (summary issue, None)).
Proof.
  intros Hi. unfold summary_fields. cbn [assignments]. run_monad.
  rewrite Hi, !field_of_value by assumption. reflexivity.
Qed.

Lemma projected_present issue a b s :
  path_get issue ["fields"; a; b] = VStr s -> s <> "" ->
  projected issue a b = VStr s.
Proof.
  cbn [path_get]. unfold projected. intros H Hs.
  assert (Ha : truthy (get (get issue "fields") a) = true).
  { apply (get_defined _ b). rewrite H. discriminate. }
  assert (Hf : truthy (get issue "fields") = true).
  { apply (get_defined _ a). intros E. rewrite E in Ha. discriminate. }
  rewrite Hf, Ha, H. unfold js_or. cbn [truthy].
  destruct (s =? "") eqn:E; [|reflexivity].
  apply String.eqb_eq in E. contradiction.
Qed.

Lemma projected_absent issue a b :
  path_get issue ["fields"; a; b] = VUndef -> projected issue a b = VNull.
Proof.
  cbn [path_get]. unfold projected, js_or. intros H.
  destruct (truthy (get issue "fields")) eqn:Hf.
  - destruct (truthy (get (get issue "fields") a)) eqn:Ha.
    + now rewrite H.
    + now rewrite Ha.
  - now rewrite Hf.
Qed.

(** C8. [getTicketSummary], given an issue with key ["T-1"], status name
    ["Open"] and assignee e-mail address ["a@b.com"], stores one object,
    whose [ticket], [status] and [assignedTo] are these three strings and in
    which every one of the seven projected fields whose source path is
    absent from the issue is [null]; the call is resolved. *)
Theorem C8_summary_projection JSON_parse input args issue :
  first_violation Connector.getTicketSummary args = None ->
  truthy (jira_error (jira input)) = false ->
  jira_issue (jira input) = issue ->
  get issue "key" = VStr "T-1" ->
  path_get issue ["fields"; "status"; "name"] = VStr "Open" ->
  path_get issue ["fields"; "assignee"; "emailAddress"] = VStr "a@b.com" ->
  exists result,
    promise (invoke JSON_parse Connector.getTicketSummary input args)
    = Resolved
    /\ writes (trace (invoke JSON_parse Connector.getTicketSummary input args))
       = [(store_slot Connector.getTicketSummary args, result)]
    /\ get result "ticket" = VStr "T-1"
    /\ get result "status" = VStr "Open"
    /\ get result "assignedTo" = VStr "a@b.com"
    /\ forall field path,
         In (field, path) summary_projection ->
         path_get issue path = VUndef ->
         get result field = VNull.
Proof.
  intros Hv He Hi Hkey Hstatus Hassignee.
  assert (Hobj : exists fs, issue = VObj fs).
  { destruct issue; try discriminate Hkey. now eexists. }
  destruct Hobj as (fs & Hfs).
  assert (Hn : nullish issue = false) by now rewrite Hfs.
  assert (Ht : truthy issue = true) by now rewrite Hfs.
  assert (Hk : own_keys issue <> 0).
  { rewrite Hfs in *. destruct fs; [discriminate Hkey | discriminate]. }
  exists (summary issue).
  apply Nat.eqb_neq in Hk.
  open_validation Hv. open_connector. open_helpers. run_monad.
  unfold js_and. rewrite !He, !Hi, !Ht, Hk.
  replace (typeof_object issue) with true by now rewrite Hfs.
  repeat (step; use_facts).
  rewrite summary_of_issue by assumption.
  cbn [fst snd trace promise app writes write_of store_slot
       ticket contextStore stopOnError username password domain].
  split; [reflexivity|]. split; [reflexivity|].
  unfold summary. cbn [get lookup String.eqb Ascii.eqb Bool.eqb].
  split; [now rewrite Hkey|].
  split; [now apply projected_present|].
  split; [now apply projected_present|].
  intros field path Hin Habsent.
  cbn [summary_projection In] in Hin.
  repeat (destruct Hin as [[= <- <-]|Hin];
          [cbn [lookup String.eqb Ascii.eqb Bool.eqb];
           now apply projected_absent|]).
  contradiction.
Qed.

Lemma C8_summary_projection_witness :
  first_violation Connector.getTicketSummary (ticket_args false) = None
  /\ truthy (jira_error (jira (jira_says VNull sample_issue))) = false
  /\ get sample_issue "key" = VStr "T-1"
  /\ path_get sample_issue ["fields"; "status"; "name"] = VStr "Open"
  /\ path_get sample_issue ["fields"; "assignee"; "emailAddress"]
     = VStr "a@b.com"
  /\ exists result,
       promise (invoke no_JSON Connector.getTicketSummary
                  (jira_says VNull sample_issue) (ticket_args false))
       = Resolved
       /\ writes (trace (invoke no_JSON Connector.getTicketSummary
                           (jira_says VNull sample_issue) (ticket_args false)))
          = [(ContextSlot "ticket", result)]
       /\ get result "ticket" = VStr "T-1"
       /\ get result "status" = VStr "Open"
       /\ get result "assignedTo" = VStr "a@b.com"
       /\ forall field path,
            In (field, path) summary_projection ->
            path_get sample_issue path = VUndef ->
            get result field = VNull.
Proof.
  split; [reflexivity|]. split; [reflexivity|]. split; [reflexivity|].
  split; [reflexivity|]. split; [reflexivity|].
  exact (C8_summary_projection no_JSON (jira_says VNull sample_issue)
           (ticket_args false) sample_issue
           eq_refl eq_refl eq_refl eq_refl eq_refl eq_refl).
Defined.

(* ================================================================== *)
(** * The table list *)
(* ================================================================== *)

(** C9. [GETFromTable], when the request succeeds with a response whose
    [data.result] is an array, stores exactly that array, and that is its
    only write.  The [params] of the request carry [sysparm_limit] and
    [caller_id] with the values of the arguments [limit] and [caller_id],
    and [assigned_to] whenever the argument is provided (truthy; it is left
    out otherwise). *)
Theorem C9_table_list JSON_parse input args response rows :
  first_violation Connector.GETFromTable args = None ->
  axios input = AxiosResolve response ->
  path_get response ["data"; "result"] = VArr rows ->
  exists options params,
    invoke JSON_parse Connector.GETFromTable input args
    = {| trace :=
           [ Http (AxiosCall "get"
               (to_string (get (get args "secret") "instance")
                  ^^ "/api/now/table/" ^^ to_string (get args "tableName"))
               None options);
             AddToContext (get args "store") (VArr rows) "simple" ];
         promise := Resolved |}
    /\ get options "params" = VObj params
    /\ lookup "sysparm_limit" params = Some (get args "limit")
    /\ lookup "caller_id" params = Some (get args "caller_id")
    /\ lookup "assigned_to" params
       = if truthy (get args "assigned_to")
         then Some (get args "assigned_to") else None.
Proof.
  intros Hv Ha Hrows. cbn [path_get] in Hrows.
  assert (Hd : nullish (get response "data") = false).
  { apply truthy_not_nullish, (get_defined _ "result"). now rewrite Hrows. }
  assert (Hr : nullish response = false).
  { apply truthy_not_nullish, (get_defined _ "data").
    intros E. rewrite E in Hd. discriminate. }
  open_validation Hv. open_connector. open_helpers. run_monad.
  rewrite Ha, Hr, Hd, Hrows.
  repeat (next_test; cbn [negb trace promise app] in *; use_facts);
    eexists; eexists; (split; [reflexivity|]); repeat split.
Qed.

Lemma C9_table_list_witness :
  first_violation Connector.GETFromTable (table_args false) = None
  /\ path_get (VObj [("data", VObj [("result", VArr sample_rows)])])
       ["data"; "result"] = VArr sample_rows
  /\ exists options params,
       invoke no_JSON Connector.GETFromTable
         (axios_says
            (AxiosResolve (VObj [("data", VObj [("result", VArr sample_rows)])])))
         (table_args false)
       = {| trace :=
              [ Http (AxiosCall "get"
                  "https://dev.service-now.com/api/now/table/incident"
                  None options);
                AddToContext (VStr "rows") (VArr sample_rows) "simple" ];
            promise := Resolved |}
       /\ get options "params" = VObj params
       /\ lookup "sysparm_limit" params = Some (VNum 5)
       /\ lookup "caller_id" params = Some (VStr "alice")
       /\ lookup "assigned_to" params = Some (VStr "bob").
Proof.
  split; [reflexivity|]. split; [reflexivity|].
  exact (C9_table_list no_JSON
           (axios_says
              (AxiosResolve
                 (VObj [("data", VObj [("result", VArr sample_rows)])])))
           (table_args false) _ sample_rows eq_refl eq_refl eq_refl).
Defined.

(* ================================================================== *)
(** * The searches without an error branch *)
(* ================================================================== *)

Lemma lookup_set_field_other k k' v fs :
  k' <> k -> lookup k' (set_field k v fs) = lookup k' fs.
Proof.
  intros Hne. induction fs as [|[k0 v0] fs IH]; cbn.
  - destruct (k =? k') eqn:E; [|reflexivity].
    apply String.eqb_eq in E. congruence.
  - destruct (k0 =? k) eqn:E; cbn.
    + apply String.eqb_eq in E. subst k0.
      destruct (k =? k') eqn:E'; [|reflexivity].
      apply String.eqb_eq in E'. congruence.
    + now rewrite IH.
Qed.

Lemma get_set_prop_other o k k' v :
  k' <> k -> get (set_prop o k v) k' = get o k'.
Proof.
  intros Hne. destruct o; try reflexivity.
  cbn. now rewrite lookup_set_field_other.
Qed.

(** C10. [bingNewsSearch] and [bingImageSearch] have no error branch: the
    value of [stopOnError] never changes what a call does, and when the
    arguments pass validation and the request fails, before or during the
    response, the promise is never settled and nothing is written. *)
Theorem C10_silent_searches JSON_parse c input args :
  family_of c = SilentSearch ->
  (forall flag,
     invoke JSON_parse c input (set_prop args "stopOnError" flag)
     = invoke JSON_parse c input args)
  /\ (first_violation c args = None ->
      failed (https input) = true ->
      promise (invoke JSON_parse c input args) = Pending
      /\ writes (trace (invoke JSON_parse c input args)) = []).
Proof.
  intros Hc. split.
  - intros flag.
    destruct c; try discriminate Hc; open_connector;
      rewrite !get_set_prop_other by discriminate; reflexivity.
  - intros Hv Hf.
    destruct c; try discriminate Hc; open_validation Hv;
      open_connector; open_helpers; run_monad;
      repeat (next_test; cbn [negb orb trace promise app] in *; use_facts);
      destruct (https input); try discriminate Hf; split; reflexivity.
Qed.

Lemma C10_silent_searches_witness :
  family_of Connector.bingNewsSearch = SilentSearch
  /\ first_violation Connector.bingNewsSearch (cognitive_args true) = None
  /\ failed (https (https_says (ResponseError [] ECONNREFUSED))) = true
  /\ promise (invoke no_JSON Connector.bingNewsSearch
                (https_says (ResponseError [] ECONNREFUSED))
                (cognitive_args true)) = Pending
  /\ writes (trace (invoke no_JSON Connector.bingNewsSearch
                      (https_says (ResponseError [] ECONNREFUSED))
                      (cognitive_args true))) = [].
Proof.
  split; [reflexivity|]. split; [reflexivity|]. split; [reflexivity|].
  exact (proj2 (C10_silent_searches no_JSON Connector.bingNewsSearch
                  (https_says (ResponseError [] ECONNREFUSED))
                  (cognitive_args true) eq_refl)
           eq_refl eq_refl).
Defined.

(* ================================================================== *)
(** * Further properties of the connectors *)
(* ================================================================== *)

(** Hides the state of the call behind a name while the code is run. *)
Ltac fold_invoke :=
  match goal with
  | |- context [invoke ?j ?c ?i ?a] =>
      pattern (invoke j c i a);
      match goal with
      | |- ?P _ => let Q := fresh "Q" in set (Q := P)
      end
  end.

Ltac run_connector :=
  open_connector; open_helpers; run_monad;
  repeat (first [step | summary_assignments]; use_facts).

Ltac unfold_invoke :=
  match goal with
  | Q := _ |- _ => subst Q; cbv beta
  end.



(** A connector never writes anywhere but at its configured store
    location. *)
Theorem writes_stay_in_the_store JSON_parse c input args :
  Forall (fun w => fst w = store_slot c args)
    (writes (trace (invoke JSON_parse c input args))).
Proof.
  destruct c; fold_invoke; run_connector; unfold_invoke;
    cbn [trace writes write_of store_slot fst];
    repeat match goal with
           | H : truthy _ = _ |- _ => rewrite H
           end;
    repeat constructor.
Qed.

(* ================================================================== *)
(** * The ServiceNow connectors *)
(* ================================================================== *)

(** The ServiceNow connectors that read a result ([GETFromTable],
    [POSTToTable], [PatchRecordInTable], [GETAttachments],
    [GETAttachmentById], [POSTAttachment]) store [response.data.result] as
    it is, whatever kind of value it is and whatever [stopOnError] says,
    and resolve. *)
Theorem servicenow_result_stored JSON_parse c input args response :
  stores_result c = true ->
  first_violation c args = None ->
  downloaded c input = true ->
  axios input = AxiosResolve response ->
  nullish response = false ->
  nullish (get response "data") = false ->
  promise (invoke JSON_parse c input args) = Resolved
  /\ writes (trace (invoke JSON_parse c input args))
     = [(store_slot c args, get (get response "data") "result")].
Proof.
  intros Hc Hv Hd Ha Hr Hdata.
  destruct c; try discriminate Hc; cbn [downloaded] in Hd;
    open_validation Hv; fold_invoke;
    open_connector; open_helpers; run_monad;
    rewrite ?Ha, ?Hr, ?Hdata;
    repeat (first [step | summary_assignments]; use_facts);
    try discriminate Hd;
    unfold_invoke; split; reflexivity.
Qed.

Lemma servicenow_result_stored_witness :
  stores_result Connector.POSTToTable = true
  /\ first_violation Connector.POSTToTable
       (set_prop (table_args true) "data" (VObj [("short_description", VStr "x")]))
     = None
  /\ promise (invoke no_JSON Connector.POSTToTable
                (axios_says (AxiosResolve
                   (VObj [("data", VObj [("result", VNum 7)])])))
                (set_prop (table_args true) "data"
                   (VObj [("short_description", VStr "x")])))
     = Resolved
  /\ writes (trace (invoke no_JSON Connector.POSTToTable
                (axios_says (AxiosResolve
                   (VObj [("data", VObj [("result", VNum 7)])])))
                (set_prop (table_args true) "data"
                   (VObj [("short_description", VStr "x")]))))
     = [(ContextSlot "rows", VNum 7)].
Proof.
  split; [reflexivity|]. split; [reflexivity|].
  exact (servicenow_result_stored no_JSON Connector.POSTToTable
           (axios_says (AxiosResolve
              (VObj [("data", VObj [("result", VNum 7)])])))
           (set_prop (table_args true) "data"
              (VObj [("short_description", VStr "x")]))
           (VObj [("data", VObj [("result", VNum 7)])])
           eq_refl eq_refl eq_refl eq_refl eq_refl eq_refl).
Defined.

(** [DeleteFromTable] and [DeleteAttachment] never read the answer to a
    request that succeeds: they store their confirmation, which ends in the
    id they were given, and resolve. *)
Theorem servicenow_delete_confirmed JSON_parse c input args wording response :
  confirmation c = Some wording ->
  first_violation c args = None ->
  axios input = AxiosResolve response ->
  promise (invoke JSON_parse c input args) = Resolved
  /\ writes (trace (invoke JSON_parse c input args))
     = [(store_slot c args, VStr (wording ^^ to_string (get args "sysId")))].
Proof.
  intros Hc Hv Ha.
  destruct c; try discriminate Hc; injection Hc as <-;
    open_validation Hv; fold_invoke;
    open_connector; open_helpers; run_monad; rewrite ?Ha;
    repeat (first [step | summary_assignments]; use_facts);
    unfold_invoke; split; reflexivity.
Qed.

Lemma servicenow_delete_confirmed_witness :
  confirmation Connector.DeleteAttachment
  = Some "succefully deleted attachment with id: "
  /\ first_violation Connector.DeleteAttachment
       (set_prop (table_args false) "sysId" (VStr "9f3")) = None
  /\ promise (invoke no_JSON Connector.DeleteAttachment
                (axios_says (AxiosResolve VUndef))
                (set_prop (table_args false) "sysId" (VStr "9f3")))
     = Resolved
  /\ writes (trace (invoke no_JSON Connector.DeleteAttachment
                (axios_says (AxiosResolve VUndef))
                (set_prop (table_args false) "sysId" (VStr "9f3"))))
     = [(ContextSlot "rows",
         VStr "succefully deleted attachment with id: 9f3")].
Proof.
  split; [reflexivity|]. split; [reflexivity|].
  exact (servicenow_delete_confirmed no_JSON Connector.DeleteAttachment
           (axios_says (AxiosResolve VUndef))
           (set_prop (table_args false) "sysId" (VStr "9f3"))
           _ VUndef eq_refl eq_refl eq_refl).
Defined.

(** A success without a payload is an error: when the request of a
    ServiceNow connector that reads a result succeeds with a response that
    has no [data], the [TypeError] of the failed read takes the error path.
    Told to continue, the call stores [{ error: message }] and resolves;
    told to stop, it is rejected with a new [Error] of that message and
    writes nothing. *)
Theorem servicenow_empty_success JSON_parse c input args response e :
  stores_result c = true ->
  first_violation c args = None ->
  downloaded c input = true ->
  axios input = AxiosResolve response ->
  result_of response = inr e ->
  if truthy (get args "stopOnError")
  then promise (invoke JSON_parse c input args)
       = Rejected (new_Error (get e "message"))
       /\ writes (trace (invoke JSON_parse c input args)) = []
  else promise (invoke JSON_parse c input args) = Resolved
       /\ writes (trace (invoke JSON_parse c input args))
          = [(store_slot c args, VObj [("error", get e "message")])].
Proof.
  intros Hc Hv Hd Ha He. unfold result_of in He.
  destruct c; try discriminate Hc; cbn [downloaded] in Hd;
    open_validation Hv; fold_invoke;
    open_connector; open_helpers; run_monad;
    rewrite ?Ha;
    repeat (first [step | summary_assignments]; use_facts);
    try discriminate Hd; try discriminate He;
    try (injection He as <-);
    unfold_invoke; split; reflexivity.
Qed.

Lemma servicenow_empty_success_witness :
  stores_result Connector.GETFromTable = true
  /\ first_violation Connector.GETFromTable (table_args false) = None
  /\ result_of (VObj [("status", VNum 204)])
     = inr (VError "TypeError" "Cannot read property 'result' of undefined")
  /\ promise (invoke no_JSON Connector.GETFromTable
                (axios_says (AxiosResolve (VObj [("status", VNum 204)])))
                (table_args false)) = Resolved
  /\ writes (trace (invoke no_JSON Connector.GETFromTable
                (axios_says (AxiosResolve (VObj [("status", VNum 204)])))
                (table_args false)))
     = [(ContextSlot "rows",
         VObj [("error",
                VStr "Cannot read property 'result' of undefined")])].
Proof.
  split; [reflexivity|]. split; [reflexivity|]. split; [reflexivity|].
  exact (servicenow_empty_success no_JSON Connector.GETFromTable
           (axios_says (AxiosResolve (VObj [("status", VNum 204)])))
           (table_args false) (VObj [("status", VNum 204)]) _
           eq_refl eq_refl eq_refl eq_refl eq_refl).
Defined.

(* ================================================================== *)
(** * The Jira connectors *)
(* ================================================================== *)

(** An error of the Jira client without [errorMessages] is beyond
    [stopOnError]: every Jira getter logs it and rejects with a fixed
    message, whatever the flag says, and writes nothing. *)
Theorem jira_unrecognised_error JSON_parse c input args :
  family_of c = JiraIssue ->
  first_violation c args = None ->
  truthy (jira_error (jira input)) = true ->
  truthy (get (jira_error (jira input)) "errorMessages") = false ->
  invoke JSON_parse c input args
  = {| trace := [ getIssue_request args;
                  Log (VStr "error") (VStr "JIRA API has changed") ];
       promise := Rejected (VStr "Error while getting Jira issue.") |}.
Proof.
  intros Hc Hv He Hm.
  destruct c; try discriminate Hc; open_validation Hv;
    open_connector; open_helpers; run_monad;
    unfold js_and; rewrite ?He, ?Hm;
    repeat (first [step | summary_assignments]; use_facts);
    reflexivity.
Qed.

Lemma jira_unrecognised_error_witness :
  family_of Connector.getAllTicketInfo = JiraIssue
  /\ first_violation Connector.getAllTicketInfo (ticket_args false) = None
  /\ truthy (jira_error (jira offline)) = true
  /\ truthy (get (jira_error (jira offline)) "errorMessages") = false
  /\ invoke no_JSON Connector.getAllTicketInfo offline (ticket_args false)
     = {| trace := [ getIssue_request (ticket_args false);
                     Log (VStr "error") (VStr "JIRA API has changed") ];
          promise := Rejected (VStr "Error while getting Jira issue.") |}.
Proof.
  split; [reflexivity|]. split; [reflexivity|]. split; [reflexivity|].
  split; [reflexivity|].
  exact (jira_unrecognised_error no_JSON Connector.getAllTicketInfo offline
           (ticket_args false) eq_refl eq_refl eq_refl eq_refl).
Defined.

(** Each single-field getter stores an object of two fields, [ticket] and
    [status]: the field it reads (assignee, priority, ...) is stored under
    [status] too, and a key or field that is missing or falsy is stored as
    [null]. *)
Theorem jira_field_stored_as_status JSON_parse c input args f :
  field_name c = Some f ->
  first_violation c args = None ->
  truthy (jira_error (jira input)) = false ->
  truthy (jira_issue (jira input)) = true ->
  invoke JSON_parse c input args
  = {| trace :=
         [ getIssue_request args;
           AddToContext (get args "contextStore")
             (VObj [ ("ticket",
                      js_or (get (jira_issue (jira input)) "key") VNull);
                     ("status",
                      js_or (js_and (get (jira_issue (jira input)) "fields")
                               (get (get (jira_issue (jira input)) "fields")
                                  f))
                        VNull) ])
             "simple" ];
       promise := Resolved |}.
Proof.
  intros Hc Hv He Hi.
  pose proof (truthy_not_nullish _ Hi) as Hn.
  destruct c; try discriminate Hc; injection Hc as <-;
    open_validation Hv; open_connector; open_helpers; run_monad;
    unfold js_and at 1; rewrite ?He, ?Hi, ?Hn;
    repeat (first [step | summary_assignments]; use_facts);
    reflexivity.
Qed.

Lemma jira_field_stored_as_status_witness :
  field_name Connector.getTicketAssignee = Some "assignee"
  /\ first_violation Connector.getTicketAssignee (ticket_args false) = None
  /\ invoke no_JSON Connector.getTicketAssignee
       (jira_says VNull sample_issue) (ticket_args false)
     = {| trace :=
            [ getIssue_request (ticket_args false);
              AddToContext (VStr "ticket")
                (VObj [ ("ticket", VStr "T-1");
                        ("status",
                         VObj [("emailAddress", VStr "a@b.com")]) ])
                "simple" ];
          promise := Resolved |}.
Proof.
  split; [reflexivity|]. split; [reflexivity|].
  exact (jira_field_stored_as_status no_JSON Connector.getTicketAssignee
           (jira_says VNull sample_issue) (ticket_args false) "assignee"
           eq_refl eq_refl eq_refl eq_refl).
Defined.

(** When Jira answers without an error and without an issue ([null] or
    [undefined]), the three kinds of getters part ways: a single-field
    getter is rejected and writes nothing; [getAllTicketInfo] is rejected
    and still writes the missing issue; [getTicketSummary] logs the failure,
    stores an empty object and resolves. *)
Theorem jira_missing_issue JSON_parse input args :
  first_violation Connector.getTicketStatus args = None ->
  truthy (jira_error (jira input)) = false ->
  nullish (jira_issue (jira input)) = true ->
  let missing := VStr "Error while getting Jira issue. No issue was found" in
  (forall c f, field_name c = Some f ->
     invoke JSON_parse c input args
     = {| trace := [getIssue_request args]; promise := Rejected missing |})
  /\ invoke JSON_parse Connector.getAllTicketInfo input args
     = {| trace := [ getIssue_request args;
                     AddToContext (get args "contextStore")
                       (jira_issue (jira input)) "simple" ];
          promise := Rejected missing |}
  /\ invoke JSON_parse Connector.getTicketSummary input args
     = {| trace :=
            [ getIssue_request args;
              Unhandled missing;
              Log (VStr ("Error while getting ticket summary. Error was: "
                           ^^ to_string
                                (TypeError_read (jira_issue (jira input))
                                   "key")))
                VUndef;
              Unhandled (VStr "Error while getting ticket summary");
              AddToContext (get args "contextStore") (VObj []) "simple" ];
          promise := Resolved |}.
Proof.
  intros Hv He Hn missing.
  assert (Hi : truthy (jira_issue (jira input)) = false).
  { now destruct (jira_issue (jira input)). }
  open_validation Hv. split; [|split].
  - intros c f Hc.
    destruct c; try discriminate Hc;
      open_connector; open_helpers; run_monad;
      unfold js_and at 1; rewrite ?He, ?Hi, ?Hn;
      repeat (step; use_facts); reflexivity.
  - open_connector; open_helpers; run_monad;
      unfold js_and at 1; rewrite ?He, ?Hi, ?Hn;
      repeat (step; use_facts); reflexivity.
  - open_connector; open_helpers; run_monad;
      unfold js_and at 1; rewrite ?He, ?Hi;
      repeat (step; use_facts).
    unfold summary_fields. cbn [assignments]. run_monad. rewrite Hn.
    reflexivity.
Qed.

Lemma jira_missing_issue_witness :
  first_violation Connector.getTicketStatus (ticket_args true) = None
  /\ nullish (jira_issue (jira (jira_says VNull VUndef))) = true
  /\ promise (invoke no_JSON Connector.getTicketPriority
                (jira_says VNull VUndef) (ticket_args true))
     = Rejected (VStr "Error while getting Jira issue. No issue was found")
  /\ writes (trace (invoke no_JSON Connector.getAllTicketInfo
                      (jira_says VNull VUndef) (ticket_args true)))
     = [(ContextSlot "ticket", VUndef)]
  /\ writes (trace (invoke no_JSON Connector.getTicketSummary
                      (jira_says VNull VUndef) (ticket_args true)))
     = [(ContextSlot "ticket", VObj [])].
Proof.
  pose proof (jira_missing_issue no_JSON (jira_says VNull VUndef)
                (ticket_args true) eq_refl eq_refl eq_refl) as (H1 & H2 & H3).
  split; [reflexivity|]. split; [reflexivity|].
  split; [now rewrite (H1 Connector.getTicketPriority "priority" eq_refl)|].
  split; [now rewrite H2 | now rewrite H3].
Defined.

(** [getTicketSummary], handed any issue that is not [null] or [undefined],
    stores an object with exactly the eight fields of the summary, each of
    which is a truthy value or [null], never [undefined] or another falsy
    value, and resolves. *)
Theorem summary_fields_never_undefined JSON_parse input args :
  first_violation Connector.getTicketSummary args = None ->
  truthy (jira_error (jira input)) = false ->
  nullish (jira_issue (jira input)) = false ->
  exists result,
    promise (invoke JSON_parse Connector.getTicketSummary input args)
    = Resolved
    /\ writes (trace (invoke JSON_parse Connector.getTicketSummary input args))
       = [(store_slot Connector.getTicketSummary args, VObj result)]
    /\ map fst result
       = [ "ticket"; "type"; "project"; "status"; "assignedTo";
           "reportedBy"; "resolution"; "comments" ]
    /\ Forall (fun kv => truthy (snd kv) = true \/ snd kv = VNull) result.
Proof.
  intros Hv He Hn.
  assert (Hor : forall v, truthy (js_or v VNull) = true \/ js_or v VNull = VNull).
  { intros v. unfold js_or. destruct (truthy v) eqn:E; auto. }
  exists (match summary (jira_issue (jira input)) with
          | VObj fields => fields
          | _ => []
          end).
  open_validation Hv. fold_invoke.
  open_connector; open_helpers; run_monad.
  unfold js_and at 1. rewrite ?He.
  repeat (first [next_test | next_branch];
          cbn [trace promise app negb orb andb ticket contextStore
               stopOnError username password domain] in *; use_facts).
  all: rewrite summary_of_issue by assumption;
    cbn [fst snd trace promise app ticket contextStore stopOnError
         username password domain];
    unfold_invoke;
    cbn [trace promise writes write_of store_slot summary];
    (split; [reflexivity|]); (split; [reflexivity|]);
    (split; [reflexivity|]);
    unfold projected;
    repeat (apply Forall_cons; [cbn [snd]; apply Hor|]); apply Forall_nil.
Qed.

Lemma summary_fields_never_undefined_witness :
  first_violation Connector.getTicketSummary (ticket_args false) = None
  /\ nullish (jira_issue (jira (jira_says VNull (VStr "not an issue"))))
     = false
  /\ exists result,
       promise (invoke no_JSON Connector.getTicketSummary
                  (jira_says VNull (VStr "not an issue")) (ticket_args false))
       = Resolved
       /\ writes (trace (invoke no_JSON Connector.getTicketSummary
                    (jira_says VNull (VStr "not an issue"))
                    (ticket_args false)))
          = [(store_slot Connector.getTicketSummary (ticket_args false),
              VObj result)]
       /\ map fst result
          = [ "ticket"; "type"; "project"; "status"; "assignedTo";
              "reportedBy"; "resolution"; "comments" ]
       /\ Forall (fun kv => truthy (snd kv) = true \/ snd kv = VNull) result.
Proof.
  split; [reflexivity|]. split; [reflexivity|].
  exact (summary_fields_never_undefined no_JSON
           (jira_says VNull (VStr "not an issue")) (ticket_args false)
           eq_refl eq_refl eq_refl).
Defined.

(** [createJiraTicket], when Jira reports no error, stores the created
    issue and resolves after one call, in which the assignee of the new
    issue is the [assignee] argument, or ["admin"] when that argument is
    missing or empty. *)
Theorem createJiraTicket_default_assignee JSON_parse input args :
  first_violation Connector.createJiraTicket args = None ->
  truthy (jira_error (jira input)) = false ->
  exists r,
    invoke JSON_parse Connector.createJiraTicket input args
    = {| trace := [ Http r;
                    AddToContext (get args "contextStore")
                      (jira_issue (jira input)) "simple" ];
         promise := Resolved |}
    /\ assignee_of r
       = if truthy (get args "assignee")
         then get args "assignee" else VStr "admin".
Proof.
  intros Hv He. eexists. open_validation Hv.
  open_connector; open_helpers; run_monad. rewrite ?He.
  repeat (next_test; cbn [negb trace promise app] in *; use_facts);
    (split; [reflexivity|]);
    cbn; unfold js_or;
    repeat match goal with
           | H : truthy _ = _ |- _ => rewrite H
           end; reflexivity.
Qed.

Lemma createJiraTicket_default_assignee_witness :
  first_violation Connector.createJiraTicket (create_args true) = None
  /\ truthy (jira_error (jira (jira_says VNull sample_issue))) = false
  /\ exists r,
       invoke no_JSON Connector.createJiraTicket
         (jira_says VNull sample_issue) (create_args true)
       = {| trace := [ Http r;
                       AddToContext (VStr "ticket") sample_issue "simple" ];
            promise := Resolved |}
       /\ assignee_of r = VStr "admin".
Proof.
  split; [reflexivity|]. split; [reflexivity|].
  exact (createJiraTicket_default_assignee no_JSON
           (jira_says VNull sample_issue) (create_args true)
           eq_refl eq_refl).
Defined.

(** [createJiraTicket] told to continue after an error writes twice to the
    same location: the error object first, then the issue the client handed
    over with the error, which is what the store is left with; the call
    resolves. *)
Theorem createJiraTicket_error_overwritten JSON_parse input args :
  first_violation Connector.createJiraTicket args = None ->
  truthy (jira_error (jira input)) = true ->
  truthy (get args "stopOnError") = false ->
  promise (invoke JSON_parse Connector.createJiraTicket input args)
  = Resolved
  /\ writes (trace (invoke JSON_parse Connector.createJiraTicket input args))
     = [ (store_slot Connector.createJiraTicket args,
          VObj [("error",
                 extract_errorMessage (jira_error (jira input)))]);
         (store_slot Connector.createJiraTicket args,
          jira_issue (jira input)) ].
Proof.
  intros Hv He Hs. open_validation Hv. fold_invoke.
  open_connector; open_helpers; run_monad. rewrite ?He, ?Hs.
  repeat (next_test; cbn [negb trace promise app] in *; use_facts);
    unfold_invoke; split; reflexivity.
Qed.

Lemma createJiraTicket_error_overwritten_witness :
  first_violation Connector.createJiraTicket (create_args false) = None
  /\ truthy (jira_error (jira offline)) = true
  /\ truthy (get (create_args false) "stopOnError") = false
  /\ promise (invoke no_JSON Connector.createJiraTicket offline
                (create_args false)) = Resolved
  /\ writes (trace (invoke no_JSON Connector.createJiraTicket offline
                      (create_args false)))
     = [ (ContextSlot "ticket", VObj [("error", VUndef)]);
         (ContextSlot "ticket", VUndef) ].
Proof.
  split; [reflexivity|]. split; [reflexivity|]. split; [reflexivity|].
  exact (createJiraTicket_error_overwritten no_JSON offline
           (create_args false) eq_refl eq_refl eq_refl).
Defined.

(* ================================================================== *)
(** * The Azure and Bing connectors *)
(* ================================================================== *)

(** The seven connectors on the [https] client put the chunks of the
    response together in the order they arrive and parse the body when the
    response ends.  A body that parses is stored at the configured location
    (the context or the input, as [writeToContext] says; always the input
    for the Bing searches) and the call resolves, whatever [stopOnError]
    is. *)
Theorem https_answer_stored JSON_parse c input args body answer :
  parses_body c = true ->
  first_violation c args = None ->
  delivered input = Some body ->
  JSON_parse body = Some answer ->
  promise (invoke JSON_parse c input args) = Resolved
  /\ writes (trace (invoke JSON_parse c input args))
     = [(store_slot c args, answer)].
Proof.
  intros Hc Hv Hd Hp. unfold delivered in Hd.
  destruct c; try discriminate Hc; open_validation Hv; fold_invoke;
    open_connector; open_helpers; run_monad;
    destruct (https input); try discriminate Hd;
    injection Hd as Hd; rewrite ?Hd, ?Hp;
    repeat (next_test; cbn [negb orb trace promise app] in *; use_facts);
    unfold_invoke; cbn [trace promise writes write_of store_slot];
    repeat match goal with
           | H : truthy _ = _ |- _ => rewrite H
           end;
    split; reflexivity.
Qed.

Lemma https_answer_stored_witness :
  parses_body Connector.bingImageSearch = true
  /\ first_violation Connector.bingImageSearch (cognitive_args true) = None
  /\ delivered (https_says (ResponseEnd ["[1,"; "2]"]))
     = Some "[1,2]"
  /\ promise (invoke any_JSON Connector.bingImageSearch
                (https_says (ResponseEnd ["[1,"; "2]"]))
                (cognitive_args true)) = Resolved
  /\ writes (trace (invoke any_JSON Connector.bingImageSearch
                (https_says (ResponseEnd ["[1,"; "2]"]))
                (cognitive_args true)))
     = [(InputSlot "answer", VObj [])].
Proof.
  split; [reflexivity|]. split; [reflexivity|]. split; [reflexivity|].
  exact (https_answer_stored any_JSON Connector.bingImageSearch
           (https_says (ResponseEnd ["[1,"; "2]"]))
           (cognitive_args true) _ (VObj [])
           eq_refl eq_refl eq_refl eq_refl).
Defined.

(** A body that does not parse is nobody's error: the [SyntaxError] escapes
    the ['end'] listener, the promise is never settled and nothing is
    written, whatever [stopOnError] is. *)
Theorem https_unparsable_answer JSON_parse c input args body :
  parses_body c = true ->
  first_violation c args = None ->
  delivered input = Some body ->
  JSON_parse body = None ->
  promise (invoke JSON_parse c input args) = Pending
  /\ writes (trace (invoke JSON_parse c input args)) = []
  /\ In (Uncaught SyntaxError) (trace (invoke JSON_parse c input args)).
Proof.
  intros Hc Hv Hd Hp. unfold delivered in Hd.
  destruct c; try discriminate Hc; open_validation Hv; fold_invoke;
    open_connector; open_helpers; run_monad;
    destruct (https input); try discriminate Hd;
    injection Hd as Hd; rewrite ?Hd, ?Hp;
    repeat (next_test; cbn [negb orb trace promise app] in *; use_facts);
    unfold_invoke; cbn [trace promise writes write_of In];
    (split; [reflexivity|]); (split; [reflexivity|]); tauto.
Qed.

Lemma https_unparsable_answer_witness :
  parses_body Connector.spellCheck = true
  /\ first_violation Connector.spellCheck (cognitive_args true) = None
  /\ delivered (https_says (ResponseEnd ["<html>"; "502</html>"]))
     = Some "<html>502</html>"
  /\ promise (invoke no_JSON Connector.spellCheck
                (https_says (ResponseEnd ["<html>"; "502</html>"]))
                (cognitive_args true)) = Pending
  /\ writes (trace (invoke no_JSON Connector.spellCheck
                (https_says (ResponseEnd ["<html>"; "502</html>"]))
                (cognitive_args true))) = []
  /\ In (Uncaught SyntaxError)
       (trace (invoke no_JSON Connector.spellCheck
                 (https_says (ResponseEnd ["<html>"; "502</html>"]))
                 (cognitive_args true))).
Proof.
  split; [reflexivity|]. split; [reflexivity|]. split; [reflexivity|].
  exact (https_unparsable_answer no_JSON Connector.spellCheck
           (https_says (ResponseEnd ["<html>"; "502</html>"]))
           (cognitive_args true) _ eq_refl eq_refl eq_refl eq_refl).
Defined.

(** [textTranslator] has one way to end: whatever the [request] client
    reports, error or not, and whatever [stopOnError] is, it stores the
    body it is handed at the configured location and resolves, after
    exactly one call. *)
Theorem textTranslator_always_resolves JSON_parse input args :
  first_violation Connector.textTranslator args = None ->
  promise (invoke JSON_parse Connector.textTranslator input args) = Resolved
  /\ writes (trace (invoke JSON_parse Connector.textTranslator input args))
     = [(store_slot Connector.textTranslator args,
         request_body (request_cb input))]
  /\ length (http_calls
               (trace (invoke JSON_parse Connector.textTranslator input args)))
     = 1.
Proof.
  intros Hv. open_validation Hv. fold_invoke.
  open_connector; open_helpers; run_monad.
  repeat (next_test; cbn [negb orb trace promise app] in *; use_facts);
    unfold_invoke; cbn [trace promise writes write_of store_slot];
    repeat match goal with
           | H : truthy _ = _ |- _ => rewrite H
           end;
    repeat split.
Qed.

Lemma textTranslator_always_resolves_witness :
  first_violation Connector.textTranslator (cognitive_args true) = None
  /\ promise (invoke no_JSON Connector.textTranslator offline
                (cognitive_args true)) = Resolved
  /\ writes (trace (invoke no_JSON Connector.textTranslator offline
                      (cognitive_args true)))
     = [(ContextSlot "answer", VUndef)]
  /\ length (http_calls
               (trace (invoke no_JSON Connector.textTranslator offline
                         (cognitive_args true)))) = 1.
Proof.
  split; [reflexivity|].
  exact (textTranslator_always_resolves no_JSON offline (cognitive_args true)
           eq_refl).
Defined.

(* ================================================================== *)
(** * The Yext connector *)
(* ================================================================== *)

(** [GetEntity] with the name of an entity shows the name in lower case,
    asks for it in lower case, and on success stores [response.data] in the
    context and resolves. *)
Theorem GetEntity_lower_case JSON_parse input args entity response :
  first_violation Connector.GetEntity args = None ->
  get args "entity" = VStr entity ->
  axios input = AxiosResolve response ->
  nullish response = false ->
  invoke JSON_parse Connector.GetEntity input args
  = {| trace := [ Output (VStr (lower entity)) VNull;
                  yext_request args entity;
                  SetContext (to_string (get args "store"))
                    (get response "data") ];
       promise := Resolved |}.
Proof.
  intros Hv He Ha Hr. open_validation Hv. rewrite He in Hv.
  open_connector; open_helpers; run_monad. rewrite ?He, ?Ha, ?Hr.
  repeat (next_test; cbn [negb orb trace promise app] in *; use_facts);
    reflexivity.
Qed.

Lemma GetEntity_lower_case_witness :
  first_violation Connector.GetEntity (cognitive_args false) = None
  /\ get (cognitive_args false) "entity" = VStr "Locations"
  /\ invoke no_JSON Connector.GetEntity
       (axios_says (AxiosResolve (VObj [("data", VStr "ok")])))
       (cognitive_args false)
     = {| trace := [ Output (VStr "locations") VNull;
                     yext_request (cognitive_args false) "Locations";
                     SetContext "answer" (VStr "ok") ];
          promise := Resolved |}.
Proof.
  split; [reflexivity|]. split; [reflexivity|].
  exact (GetEntity_lower_case no_JSON
           (axios_says (AxiosResolve (VObj [("data", VStr "ok")])))
           (cognitive_args false) "Locations" _
           eq_refl eq_refl eq_refl eq_refl).
Defined.

(** [GetEntity] given an entity that is not a string (a number, an object)
    is rejected with a [TypeError] before anything is shown or sent. *)
Theorem GetEntity_entity_not_a_string JSON_parse input args :
  first_violation Connector.GetEntity args = None ->
  is_string (get args "entity") = false ->
  invoke JSON_parse Connector.GetEntity input args
  = {| trace := [];
       promise := Rejected
         (TypeError_not_a_function "args.entity.toLowerCase") |}.
Proof.
  intros Hv He. open_validation Hv.
  open_connector; open_helpers; run_monad.
  repeat (next_test; cbn [negb orb trace promise app] in *; use_facts);
    destruct (get args "entity"); try discriminate He; reflexivity.
Qed.

Lemma GetEntity_entity_not_a_string_witness :
  first_violation Connector.GetEntity
    (set_prop (cognitive_args true) "entity" (VNum 7)) = None
  /\ is_string (get (set_prop (cognitive_args true) "entity" (VNum 7))
                  "entity") = false
  /\ invoke no_JSON Connector.GetEntity offline
       (set_prop (cognitive_args true) "entity" (VNum 7))
     = {| trace := [];
          promise := Rejected
            (VError "TypeError" "args.entity.toLowerCase is not a function") |}.
Proof.
  split; [reflexivity|]. split; [reflexivity|].
  exact (GetEntity_entity_not_a_string no_JSON offline
           (set_prop (cognitive_args true) "entity" (VNum 7))
           eq_refl eq_refl).
Defined.

(** [GetEntity] told to continue completes after a failed request without
    writing anything: the error object it builds is never stored. *)
Theorem GetEntity_error_dropped JSON_parse input args entity error :
  first_violation Connector.GetEntity args = None ->
  get args "entity" = VStr entity ->
  axios input = AxiosReject error ->
  nullish error = false ->
  truthy (get args "stopOnError") = false ->
  invoke JSON_parse Connector.GetEntity input args
  = {| trace := [ Output (VStr (lower entity)) VNull;
                  yext_request args entity ];
       promise := Resolved |}.
Proof.
  intros Hv He Ha Hr Hs. open_validation Hv. rewrite He in Hv.
  open_connector; open_helpers; run_monad. rewrite ?He, ?Ha, ?Hr, ?Hs.
  repeat (next_test; cbn [negb orb trace promise app] in *; use_facts);
    reflexivity.
Qed.

Lemma GetEntity_error_dropped_witness :
  first_violation Connector.GetEntity (cognitive_args false) = None
  /\ truthy (get (cognitive_args false) "stopOnError") = false
  /\ invoke no_JSON Connector.GetEntity offline (cognitive_args false)
     = {| trace := [ Output (VStr "locations") VNull;
                     yext_request (cognitive_args false) "Locations" ];
          promise := Resolved |}.
Proof.
  split; [reflexivity|]. split; [reflexivity|].
  exact (GetEntity_error_dropped no_JSON offline (cognitive_args false)
           "Locations" ECONNREFUSED eq_refl eq_refl eq_refl eq_refl eq_refl).
Defined.

(* ================================================================== *)
(** * The upload of an attachment *)
(* ================================================================== *)

(** [POSTAttachment] downloads first and uploads what it has downloaded:
    when the download hands over a response, the calls of the invocation
    are the download of [fileLocation] and then the upload, whose body is
    that response. *)
Theorem POSTAttachment_forwards_download JSON_parse input args file :
  first_violation Connector.POSTAttachment args = None ->
  download input = DownloadResponse file ->
  http_calls (trace (invoke JSON_parse Connector.POSTAttachment input args))
  = [ Http (HttpsGet (get args "fileLocation")); upload_request args file ].
Proof.
  intros Hv Hd. open_validation Hv. fold_invoke.
  open_connector; open_helpers; run_monad. rewrite ?Hd.
  repeat (first [step | summary_assignments]; use_facts);
    unfold_invoke; reflexivity.
Qed.

Lemma POSTAttachment_forwards_download_witness :
  first_violation Connector.POSTAttachment (attachment_args false) = None
  /\ download (axios_says (AxiosReject ECONNREFUSED))
     = DownloadResponse (VStr "<stream>")
  /\ http_calls (trace (invoke no_JSON Connector.POSTAttachment
                          (axios_says (AxiosReject ECONNREFUSED))
                          (attachment_args false)))
     = [ Http (HttpsGet (VStr "https://files.example.com/log.txt"));
         upload_request (attachment_args false) (VStr "<stream>") ].
Proof.
  split; [reflexivity|]. split; [reflexivity|].
  exact (POSTAttachment_forwards_download no_JSON
           (axios_says (AxiosReject ECONNREFUSED)) (attachment_args false)
           (VStr "<stream>") eq_refl eq_refl).
Defined.

(** When the download of [POSTAttachment] fails on the way, nothing is
    uploaded and nothing is written, and the promise is never settled,
    whatever [stopOnError] is. *)
Theorem POSTAttachment_download_hangs JSON_parse input args err :
  first_violation Connector.POSTAttachment args = None ->
  download input = DownloadError err ->
  invoke JSON_parse Connector.POSTAttachment input args
  = {| trace := [ Http (HttpsGet (get args "fileLocation")); Uncaught err ];
       promise := Pending |}.
Proof.
  intros Hv Hd. open_validation Hv.
  open_connector; open_helpers; run_monad. rewrite ?Hd.
  repeat (next_test; cbn [negb orb trace promise app] in *; use_facts);
    reflexivity.
Qed.

Lemma POSTAttachment_download_hangs_witness :
  first_violation Connector.POSTAttachment (attachment_args true) = None
  /\ download offline = DownloadError ECONNREFUSED
  /\ invoke no_JSON Connector.POSTAttachment offline (attachment_args true)
     = {| trace := [ Http (HttpsGet
                       (VStr "https://files.example.com/log.txt"));
                     Uncaught ECONNREFUSED ];
          promise := Pending |}.
Proof.
  split; [reflexivity|]. split; [reflexivity|].
  exact (POSTAttachment_download_hangs no_JSON offline (attachment_args true)
           ECONNREFUSED eq_refl eq_refl).
Defined.

(** When the client refuses the file location at once, [POSTAttachment]
    makes no outbound call at all and the refusal takes the error path. *)
Theorem POSTAttachment_location_refused JSON_parse input args e :
  first_violation Connector.POSTAttachment args = None ->
  download input = DownloadRefused e ->
  nullish e = false ->
  http_calls (trace (invoke JSON_parse Connector.POSTAttachment input args))
  = []
  /\ invoke JSON_parse Connector.POSTAttachment input args
     = if truthy (get args "stopOnError")
       then {| trace := [];
               promise := Rejected (new_Error (get e "message")) |}
       else {| trace := [ AddToContext (get args "store")
                            (VObj [("error", get e "message")]) "simple" ];
               promise := Resolved |}.
Proof.
  intros Hv Hd He. open_validation Hv. fold_invoke.
  open_connector; open_helpers; run_monad. rewrite ?Hd, ?He.
  repeat (next_test; cbn [negb orb trace promise app] in *; use_facts);
    unfold_invoke; split; reflexivity.
Qed.

Lemma POSTAttachment_location_refused_witness :
  first_violation Connector.POSTAttachment (attachment_args false) = None
  /\ http_calls (trace (invoke no_JSON Connector.POSTAttachment
       (download_says (DownloadRefused (VError "TypeError" "Invalid URL")))
       (attachment_args false))) = []
  /\ invoke no_JSON Connector.POSTAttachment
       (download_says (DownloadRefused (VError "TypeError" "Invalid URL")))
       (attachment_args false)
     = {| trace := [ AddToContext (VStr "rows")
                       (VObj [("error", VStr "Invalid URL")]) "simple" ];
          promise := Resolved |}.
Proof.
  split; [reflexivity|].
  exact (POSTAttachment_location_refused no_JSON
           (download_says (DownloadRefused (VError "TypeError" "Invalid URL")))
           (attachment_args false) _ eq_refl eq_refl eq_refl).
Defined.

(* ================================================================== *)
(** * The ticket extractor without a text *)
(* ================================================================== *)

(** [extractTicket] on an input whose text is not a string (a missing text,
    a number) meets a [TypeError]: told to continue it stores
    [{ error: message }] and resolves, told to stop it is rejected with a
    new [Error] of that message and writes nothing.  No outbound call is
    made either way. *)
Theorem extractTicket_without_text JSON_parse input args :
  first_violation Connector.extractTicket args = None ->
  is_string (input_text input) = false ->
  invoke JSON_parse Connector.extractTicket input args
  = if truthy (get args "stopOnError")
    then {| trace := [];
            promise := Rejected
              (new_Error (get (match_error (input_text input)) "message")) |}
    else {| trace := [ AddToContext (get args "contextStore")
                         (VObj [("error",
                                 get (match_error (input_text input))
                                   "message")])
                         "simple" ];
            promise := Resolved |}.
Proof.
  intros Hv Ht. open_validation Hv. unfold match_error.
  open_connector; open_helpers; run_monad.
  repeat (next_test; cbn [negb orb trace promise app] in *; use_facts);
    destruct (input_text input); try discriminate Ht; reflexivity.
Qed.

Lemma extractTicket_without_text_witness :
  first_violation Connector.extractTicket (extract_args false) = None
  /\ is_string (input_text
       (receiving VUndef)) = false
  /\ invoke no_JSON Connector.extractTicket
       (receiving VUndef)
       (extract_args false)
     = {| trace := [ AddToContext (VStr "ticket")
                       (VObj [("error",
                               VStr "Cannot read property 'match' of undefined")])
                       "simple" ];
          promise := Resolved |}.
Proof.
  split; [reflexivity|]. split; [reflexivity|].
  exact (extractTicket_without_text no_JSON
           (receiving VUndef)
           (extract_args false) eq_refl eq_refl).
Defined.

(* ================================================================== *)
(** * What is sent *)
(* ================================================================== *)





Lemma utf16_length_plain s :
  every plain s = true -> utf16_length s = String.length s.
Proof.
  induction s as [|a s IH]; [reflexivity|].
  cbn [every utf16_length String.length]. intros H.
  apply andb_true_iff in H. destruct H as [Ha Hs].
  rewrite (IH Hs). unfold plain in Ha. apply Nat.ltb_lt in Ha.
  unfold between.
  replace (128 <=? code a)%nat with false
    by (symmetry; apply Nat.leb_gt; lia).
  replace (240 <=? code a)%nat with false
    by (symmetry; apply Nat.leb_gt; lia).
  reflexivity.
Qed.

Lemma length_append (a b : string) :
  String.length (a ^^ b) = String.length a + String.length b.
Proof. induction a as [|c a IH]; cbn; [reflexivity | now rewrite IH]. Qed.

(** [spellCheck] announces the length of what it writes: for a text of
    ASCII characters the [Content-Length] header of the request is exactly
    the length of the body ["text=" + text] handed to the request. *)
Theorem spellCheck_content_length JSON_parse input args text :
  first_violation Connector.spellCheck args = None ->
  get args "text" = VStr text ->
  every plain text = true ->
  exists options body rest,
    trace (invoke JSON_parse Connector.spellCheck input args)
    = Http (HttpsCall options (Some (VStr body))) :: rest
    /\ body = "text=" ^^ text
    /\ path_get options ["headers"; "Content-Length"]
       = VNum (Z.of_nat (String.length body)).
Proof.
  intros Hv Ht Hp. open_validation Hv. rewrite Ht in Hv.
  open_connector; open_helpers; run_monad. rewrite ?Ht.
  repeat (next_test; cbn [negb orb trace promise app] in *; use_facts);
    destruct (https input);
    repeat (first [step]; use_facts);
    do 3 eexists;
    (split; [reflexivity|]); (split; [reflexivity|]);
    cbn [path_get get lookup String.eqb Ascii.eqb Bool.eqb js_length
         js_add_num to_string];
    rewrite (utf16_length_plain _ Hp), length_append;
    cbn [String.length]; f_equal; lia.
Qed.

Lemma spellCheck_content_length_witness :
  first_violation Connector.spellCheck (cognitive_args false) = None
  /\ get (cognitive_args false) "text" = VStr "helo wrld"
  /\ every plain "helo wrld" = true
  /\ exists options body rest,
       trace (invoke no_JSON Connector.spellCheck offline
                (cognitive_args false))
       = Http (HttpsCall options (Some (VStr body))) :: rest
       /\ body = "text=helo wrld"
       /\ path_get options ["headers"; "Content-Length"]
          = VNum (Z.of_nat (String.length body)).
Proof.
  split; [reflexivity|]. split; [reflexivity|]. split; [reflexivity|].
  exact (spellCheck_content_length no_JSON offline (cognitive_args false)
           "helo wrld" eq_refl eq_refl eq_refl).
Defined.

(** The secret comes first: every connector but [extractTicket], called
    without a secret, is refused with the message about the secret,
    whatever else is missing or wrong. *)
Theorem secret_is_tested_first JSON_parse c input args :
  c <> Connector.extractTicket ->
  truthy (get args "secret") = false ->
  invoke JSON_parse c input args
  = refused (validation_error c (secret_message c)).
Proof.
  intros Hc Hs. apply invalid_refused. unfold first_violation.
  destruct c; try (now destruct Hc);
    cbn [validation first_failed satisfied path_get app jira_ticket
           servicenow azure_key];
    now rewrite Hs.
Qed.

Lemma secret_is_tested_first_witness :
  Connector.bingWebSearch <> Connector.extractTicket
  /\ truthy (get (VObj [("stopOnError", VBool false)]) "secret") = false
  /\ invoke no_JSON Connector.bingWebSearch offline
       (VObj [("stopOnError", VBool false)])
     = refused (VStr "Secret not defined or invalid.").
Proof.
  assert (H : Connector.bingWebSearch <> Connector.extractTicket)
    by discriminate.
  split; [exact H|]. split; [reflexivity|].
  exact (secret_is_tested_first no_JSON Connector.bingWebSearch offline
           (VObj [("stopOnError", VBool false)]) H eq_refl).
Defined.

(** Told to continue, a ServiceNow connector whose request got an answer,
    good or bad, always resolves, after exactly one write to the configured
    store location. *)
Theorem servicenow_continues JSON_parse c input args :
  answered c input = true ->
  first_violation c args = None ->
  truthy (get args "stopOnError") = false ->
  promise (invoke JSON_parse c input args) = Resolved
  /\ exists v,
       writes (trace (invoke JSON_parse c input args))
       = [(store_slot c args, v)].
Proof.
  intros Ha Hv Hs. unfold answered in Ha.
  destruct c; try discriminate Ha; cbn [family_of downloaded] in Ha;
    open_validation Hv; fold_invoke;
    open_connector; open_helpers; run_monad;
    repeat (first [step | summary_assignments]; use_facts);
    try discriminate Ha;
    unfold_invoke; (split; [reflexivity|]); eexists; reflexivity.
Qed.

Lemma servicenow_continues_witness :
  answered Connector.PatchRecordInTable
    (axios_says (AxiosResolve VNull)) = true
  /\ first_violation Connector.PatchRecordInTable
       (set_prop (set_prop (table_args false) "data" (VObj []))
          "sysId" (VStr "9f3")) = None
  /\ promise (invoke no_JSON Connector.PatchRecordInTable
                (axios_says (AxiosResolve VNull))
                (set_prop (set_prop (table_args false) "data" (VObj []))
                   "sysId" (VStr "9f3"))) = Resolved
  /\ exists v,
       writes (trace (invoke no_JSON Connector.PatchRecordInTable
                (axios_says (AxiosResolve VNull))
                (set_prop (set_prop (table_args false) "data" (VObj []))
                   "sysId" (VStr "9f3"))))
       = [(ContextSlot "rows", v)].
Proof.
  split; [reflexivity|]. split; [reflexivity|].
  exact (servicenow_continues no_JSON Connector.PatchRecordInTable
           (axios_says (AxiosResolve VNull))
           (set_prop (set_prop (table_args false) "data" (VObj []))
              "sysId" (VStr "9f3"))
           eq_refl eq_refl eq_refl).
Defined.
